(** * disruption_fractions: disruption criteria for compact-binary mergers

    A shallow embedding of [disruption.py] and the properties of its
    closed-form formulas.

    The module is written for Python floats.  Three readings of its
    arithmetic are embedded:

    - [Exact]: every float operation is read as the real-number operation
      it rounds, so that an algebraic identity of the formulas is an
      equation in [R].  What Python adds to the real numbers is kept:
      exceptions ([ZeroDivisionError], [UnboundLocalError]), NumPy's
      [nan] for the square root of a negative number, and the complex
      result of [**] on a negative base with a fractional exponent.
      There is no overflow, underflow or rounding in this reading: its
      theorems are statements in exact real arithmetic.
    - [Binary64]: the module on the kernel's IEEE 754 binary64 numbers,
      which follow [+], [-], [*], [/] and the square root bit for bit,
      with the [OverflowError] of [**] and the [ZeroDivisionError] of
      [/]; the fractional powers, which Python takes from the C library,
      are a parameter.
    - [Rounded]: the mass-conversion pair with every operation followed
      by a rounding operator, for error bounds that hold for every
      rounding of relative error at most [2^-52] on the normal range. *)

From Stdlib Require Import Reals Lra Psatz String Bool ZArith.
From Stdlib Require PrimFloat FloatOps SpecFloat FloatAxioms.

Open Scope R_scope.

(** ** Python outcomes *)

(** The exceptions the module can raise. *)
Inductive exn : Set :=
| ZeroDivisionError
| UnboundLocalError
| OverflowError.

(** A computation returns a value or raises.  [Untracked] is the third
    outcome of the embedding, not of Python: the code goes on with a
    result that depends on a number the embedding does not track. *)
Inductive py (A : Type) : Type :=
| Ok (a : A)
| Raise (e : exn)
| Untracked.

Arguments Ok {A} a.
Arguments Raise {A} e.
Arguments Untracked {A}.

Definition bind {A B : Type} (c : py A) (k : A -> py B) : py B :=
  match c with
  | Ok a => k a
  | Raise e => Raise e
  | Untracked => Untracked
  end.

Declare Scope py_scope.
Delimit Scope py_scope with py.
Notation "x <- c ;; k" := (bind c (fun x => k))
  (at level 61, c at next level, right associativity) : py_scope.

(** ** Numbers *)

(** A number met while the module runs: a real (a finite float, read
    exactly), NumPy's [nan], or a complex number, whose value the
    embedding does not track: [Complex] says of a result that it has
    Python's type [complex], and nothing about which complex number it
    is. *)
Inductive value : Type :=
| Real (r : R)
| NaN
| Complex.

Coercion Real : R >-> value.

(** [+], [-] and [*]: a complex operand makes the result complex, a [nan]
    operand makes it [nan]. *)
Definition arith (f : R -> R -> R) (a b : value) : value :=
  match a, b with
  | Real x, Real y => Real (f x y)
  | Complex, _ | _, Complex => Complex
  | _, _ => NaN
  end.

Definition py_add : value -> value -> value := arith Rplus.
Definition py_sub : value -> value -> value := arith Rminus.
Definition py_mul : value -> value -> value := arith Rmult.

(** [a / b]: a float zero divisor raises [ZeroDivisionError].  (A NumPy
    scalar divided by zero gives an infinity or [nan] instead; the only
    divisors of NumPy scalars in the module are [2 k], [c_si ** 2] and
    1000.) *)
Definition py_div (a b : value) : py value :=
  match b with
  | Real y => if Req_dec_T y 0 then Raise ZeroDivisionError
              else Ok (arith Rdiv a b)
  | _ => Ok (arith Rdiv a b)
  end.

(** [a ** 2], without the [OverflowError] of a float square too large
    and without the underflow to zero of one too small. *)
Definition py_sqr (a : value) : value := arith Rmult a a.

(** [a ** e] for a float literal [e] strictly between 0 and 1, read as
    the exact power: the base 0 gives 0, a negative base gives a complex
    number. *)
Definition py_pow (a : value) (e : R) : value :=
  match a with
  | Real x => if Rlt_dec x 0 then Complex
              else if Req_dec_T x 0 then Real 0
              else Real (Rpower x e)
  | other => other
  end.

(** [np.sqrt(a)]: a negative float gives [nan] (with a warning), never a
    complex number. *)
Definition np_sqrt (a : value) : value :=
  match a with
  | Real x => if Rlt_dec x 0 then NaN else Real (sqrt x)
  | other => other
  end.

(** [a >= b]: false as soon as a [nan] is compared.  With a complex
    operand the comparison is NumPy's, on the real parts and then the
    imaginary parts (one operand of each [>=] in the module is a NumPy
    scalar): a boolean that depends on the complex value, hence
    [Untracked]. *)
Definition py_ge (a b : value) : py bool :=
  match a, b with
  | Real x, Real y => Ok (if Rge_dec x y then true else false)
  | Complex, _ | _, Complex => Untracked
  | _, _ => Ok false
  end.

Declare Scope value_scope.
Delimit Scope value_scope with value.
Bind Scope value_scope with value.
Infix "+" := py_add : value_scope.
Infix "-" := py_sub : value_scope.
Infix "*" := py_mul : value_scope.
Infix "/" := py_div : value_scope.
Infix "**" := py_pow (at level 30, right associativity) : value_scope.
Infix ">=" := py_ge : value_scope.

(** ** The module, read over the real numbers *)

Module Exact.

Section Constants.

(** [astropy.constants] is not part of the repository: the solar mass, the
    gravitational constant and the speed of light, in SI units, are
    parameters. *)
Variables msun_si g_si c_si : R.

Definition mass_conversion_constant : R := 0.075.

Local Open Scope py_scope.
Local Open Scope value_scope.

(** The two orbit senses the docstring of [calculate_r_isco] names. *)
Definition recognized (type_ : string) : Prop :=
  type_ = "co_rotating"%string \/ type_ = "counter_rotating"%string.

(** Line 19, from the evaluated quotients [q = a_tilde**2/mass**2] and
    [s = a_tilde/mass]. *)
Definition Z_1 (q s : value) : value :=
  1 + (1 - q) ** (1/3) * ((1 + s) ** (1/3) + (1 - s) ** (1/3)).

(** Line 20, from the evaluated quotient [q3 = 3*a_tilde**2/mass**2]. *)
Definition Z_2 (q3 Z_1 : value) : value :=
  (q3 + py_sqr Z_1) ** (1/2).

(** Lines 22 to 25: the local variable [r_isco], bound by the [if]/[elif]
    on [type_] and left unbound when neither test holds. *)
Definition r_isco_branch (mass Z_1 Z_2 : value) (type_ : string)
  : option value :=
  if String.eqb type_ "co_rotating" then
    Some (mass * (3 + Z_2 - ((3 - Z_1) * (3 + Z_1 + 2 * Z_2)) ** (1/2)))
  else if String.eqb type_ "counter_rotating" then
    Some (mass * (3 + Z_2 + ((3 - Z_1) * (3 + Z_1 + 2 * Z_2)) ** (1/2)))
  else None.

(** Reading a local variable: unbound raises [UnboundLocalError]. *)
Definition read_local (v : option value) : py value :=
  match v with
  | Some x => Ok x
  | None => Raise UnboundLocalError
  end.

(** Lines 18 to 25: the ISCO radius in geometric units.  The quotients
    are evaluated before the branch, so a zero mass raises before the
    orbit sense is looked at. *)
Definition r_isco_geometric (dimensionless_spin mass : value)
    (type_ : string) : py value :=
  let a_tilde := dimensionless_spin * mass in
  q <- py_sqr a_tilde / py_sqr mass ;;
  s <- a_tilde / mass ;;
  let Z_1 := Z_1 q s in
  q3 <- (3 * py_sqr a_tilde) / py_sqr mass ;;
  let Z_2 := Z_2 q3 Z_1 in
  read_local (r_isco_branch mass Z_1 Z_2 type_).

(** Lines 26 and 27: from geometric units to kilometres. *)
Definition to_km (r_isco : value) : py value :=
  r_isco_si <- (r_isco * msun_si * g_si) / py_sqr c_si ;;
  r_isco_si / 1000.

Definition calculate_r_isco (dimensionless_spin mass : value)
    (type_ : string) : py value :=
  r_isco <- r_isco_geometric dimensionless_spin mass type_ ;;
  to_km r_isco.

Definition calculate_r_disruption (mbh mns rns : value) : py value :=
  q <- mbh / mns ;;
  Ok (rns * q ** (1/3)).

Definition nsbh_disruption (mbh mns rns dimensionless_spin : value)
    (type : string) : py bool :=
  rdis <- calculate_r_disruption mbh mns rns ;;
  risco <- calculate_r_isco dimensionless_spin mbh type ;;
  (rdis >= risco).

Definition rest_mass_from_gravitational_mass (gravitational_mass : value)
  : value :=
  gravitational_mass + mass_conversion_constant * py_sqr gravitational_mass.

Definition gravitational_mass_from_rest_mass (rest_mass : value) : py value :=
  (-1 + np_sqrt (1 + 4 * mass_conversion_constant * rest_mass))
  / (2 * mass_conversion_constant).

(** A keyword argument with a default value. *)
Definition default (d : value) (arg : option value) : value :=
  match arg with
  | Some v => v
  | None => d
  end.

Definition total_gravitational_mass
    (gravitational_mass_1 gravitational_mass_2 : value)
    (ejecta_mass : option value) : py value :=
  let ejecta_mass := default 0.05 ejecta_mass in
  let rest_mass_1 := rest_mass_from_gravitational_mass gravitational_mass_1 in
  let rest_mass_2 := rest_mass_from_gravitational_mass gravitational_mass_2 in
  let total_rest_mass := rest_mass_1 + rest_mass_2 - ejecta_mass in
  gravitational_mass_from_rest_mass total_rest_mass.

Definition bns_disruption (m1 m2 mtov : value) (ejecta_mass : option value)
  : py bool :=
  let ejecta_mass := default 0.05 ejecta_mass in
  remnant_mass <- total_gravitational_mass m1 m2 (Some ejecta_mass) ;;
  (remnant_mass >= 1.2 * mtov).

End Constants.

End Exact.

(** ** The module on binary64 floats *)

Module Binary64.

Import PrimFloat.

#[local] Set Warnings "-inexact-float".
Local Open Scope float_scope.
Local Open Scope py_scope.

Definition mass_conversion_constant : float := 0.075.

(** [x ** 2] on a builtin float: [OverflowError] when the square of a
    finite number is too large for a float; a square too small is zero.
    The result is taken as the correctly rounded product [x * x]; the C
    library's [pow], which Python calls, can differ from it by one unit
    in the last place for some arguments. *)
Definition float_sqr (x : float) : py float :=
  let p := x * x in
  if is_finite x && is_infinity p then Raise OverflowError else Ok p.

(** [a / b] on builtin floats: a zero divisor raises. *)
Definition float_div (a b : float) : py float :=
  if b =? 0 then Raise ZeroDivisionError else Ok (a / b).

Definition rest_mass_from_gravitational_mass (gravitational_mass : float)
  : py float :=
  square <- float_sqr gravitational_mass ;;
  Ok (gravitational_mass + mass_conversion_constant * square).

(** The sums, the products, [np.sqrt] and the division by the non-zero
    [2 k] do not raise: they overflow to an infinity and give [nan] for
    the square root of a negative number. *)
Definition gravitational_mass_from_rest_mass (rest_mass : float) : float :=
  (-1 + sqrt (1 + 4 * mass_conversion_constant * rest_mass))
  / (2 * mass_conversion_constant).

Definition default (d : float) (arg : option float) : float :=
  match arg with
  | Some v => v
  | None => d
  end.

Definition total_gravitational_mass
    (gravitational_mass_1 gravitational_mass_2 : float)
    (ejecta_mass : option float) : py float :=
  let ejecta_mass := default 0.05 ejecta_mass in
  rest_mass_1 <- rest_mass_from_gravitational_mass gravitational_mass_1 ;;
  rest_mass_2 <- rest_mass_from_gravitational_mass gravitational_mass_2 ;;
  let total_rest_mass := rest_mass_1 + rest_mass_2 - ejecta_mass in
  Ok (gravitational_mass_from_rest_mass total_rest_mass).

Definition bns_disruption (m1 m2 mtov : float) (ejecta_mass : option float)
  : py bool :=
  let ejecta_mass := default 0.05 ejecta_mass in
  remnant_mass <- total_gravitational_mass m1 m2 (Some ejecta_mass) ;;
  Ok (1.2 * mtov <=? remnant_mass).

(** The round trip through the pair, as the spec tests it. *)
Definition round_trip (x : float) : py float :=
  rest_mass <- rest_mass_from_gravitational_mass x ;;
  Ok (gravitational_mass_from_rest_mass rest_mass).

Section Pow.

(** [base ** exponent] on builtin floats, for the exponents [1/3] and
    [1/2] of the module.  Python takes the power of a base that is not a
    negative finite number from the C library: [pow] is a parameter.  For
    a negative finite base the power is a complex number, which the
    embedding does not track. *)
Variable pow : float -> float -> float.

Definition float_pow (base exponent : float) : py float :=
  if is_finite base && (base <? 0) then Untracked
  else Ok (pow base exponent).

(** The NumPy scalars of [astropy.constants]. *)
Variables msun_si g_si c_si : float.

(** Lines 18 and 19 of [calculate_r_isco] up to the quotient
    [a_tilde**2/mass**2], the first operation of the function that can
    raise: [a_tilde**2] is evaluated first, then [mass**2], then the
    division. *)
Definition isco_quotient (dimensionless_spin mass : float) : py float :=
  let a_tilde := dimensionless_spin * mass in
  numerator <- float_sqr a_tilde ;;
  denominator <- float_sqr mass ;;
  float_div numerator denominator.

(** Lines 22 to 25: the [if]/[elif] on [type_]; with neither sense the
    local variable is unbound when line 26 reads it. *)
Definition r_isco_branch (mass Z_1 Z_2 : float) (type_ : string)
  : py float :=
  if String.eqb type_ "co_rotating" then
    root <- float_pow ((3 - Z_1) * (3 + Z_1 + 2 * Z_2)) (1 / 2) ;;
    Ok (mass * (3 + Z_2 - root))
  else if String.eqb type_ "counter_rotating" then
    root <- float_pow ((3 - Z_1) * (3 + Z_1 + 2 * Z_2)) (1 / 2) ;;
    Ok (mass * (3 + Z_2 + root))
  else Raise UnboundLocalError.

(** Lines 18 to 25, every operation in the order Python evaluates
    it. *)
Definition r_isco_geometric (dimensionless_spin mass : float)
    (type_ : string) : py float :=
  let a_tilde := dimensionless_spin * mass in
  quotient <- isco_quotient dimensionless_spin mass ;;
  root_1 <- float_pow (1 - quotient) (1 / 3) ;;
  ratio <- float_div a_tilde mass ;;
  root_2 <- float_pow (1 + ratio) (1 / 3) ;;
  ratio <- float_div a_tilde mass ;;
  root_3 <- float_pow (1 - ratio) (1 / 3) ;;
  let Z_1 := 1 + root_1 * (root_2 + root_3) in
  numerator <- float_sqr a_tilde ;;
  denominator <- float_sqr mass ;;
  quotient <- float_div (3 * numerator) denominator ;;
  square <- float_sqr Z_1 ;;
  Z_2 <- float_pow (quotient + square) (1 / 2) ;;
  r_isco_branch mass Z_1 Z_2 type_.

(** Lines 26 and 27, on NumPy scalars, whose operations do not raise. *)
Definition to_km (r_isco : float) : float :=
  r_isco * msun_si * g_si / (c_si * c_si) / 1000.

Definition calculate_r_isco (dimensionless_spin mass : float)
    (type_ : string) : py float :=
  r_isco <- r_isco_geometric dimensionless_spin mass type_ ;;
  Ok (to_km r_isco).

Definition calculate_r_disruption (mbh mns rns : float) : py float :=
  quotient <- float_div mbh mns ;;
  root <- float_pow quotient (1 / 3) ;;
  Ok (rns * root).

Definition nsbh_disruption (mbh mns rns dimensionless_spin : float)
    (type : string) : py bool :=
  rdis <- calculate_r_disruption mbh mns rns ;;
  risco <- calculate_r_isco dimensionless_spin mbh type ;;
  Ok (risco <=? rdis).

End Pow.

(** The real number a float stands for (0 for infinities and [nan]). *)
Definition SF2R (f : SpecFloat.spec_float) : R :=
  match f with
  | SpecFloat.S754_finite s m e =>
      (if s then -1 else 1)%R * IZR (Zpos m) * powerRZ 2 e
  | _ => 0%R
  end.

Definition to_R (x : float) : R := SF2R (FloatOps.Prim2SF x).

(** [approx] is within the relative tolerance [tol] of [exact]. *)
Definition within_rel_tol (tol approx exact : R) : Prop :=
  (Rabs (approx - exact) <= tol * Rabs exact)%R.

End Binary64.

(** ** The mass-conversion pair with rounded operations *)

Module Rounded.

(** Every operation returns its exact result with a relative error of at
    most [2^-52]: what binary64 guarantees for [+], [*], [/] and the
    square root (with [2^-53]), and what the C library's [pow] gives for
    the square (within one unit in the last place), as long as the exact
    result is in the range of the normal numbers.  The model asks for it
    only between [1e-300] and [1e305], inside that range, so that it
    holds of binary64 itself: nothing is assumed of a result that
    underflows or overflows. *)
Definition rounding_error : R := / 2 ^ 52.

Definition standard_model (rnd : R -> R) : Prop :=
  forall v : R,
    1e-300 <= Rabs v <= 1e305 ->
    Rabs (rnd v - v) <= rounding_error * Rabs v.

Section Rounding.

(** The rounding of a real number to a float.  The square root is the
    real one: the definitions are meant for a square-root argument that
    is not negative. *)
Variable rnd : R -> R.

Definition mass_conversion_constant : R := rnd 0.075.

Definition rest_mass_from_gravitational_mass (gravitational_mass : R) : R :=
  rnd (gravitational_mass
       + rnd (mass_conversion_constant
              * rnd (gravitational_mass * gravitational_mass))).

Definition gravitational_mass_from_rest_mass (rest_mass : R) : R :=
  rnd (rnd (-1 + rnd (sqrt (rnd (1 + rnd (rnd (4 * mass_conversion_constant)
                                          * rest_mass)))))
       / rnd (2 * mass_conversion_constant)).

Definition round_trip (x : R) : R :=
  gravitational_mass_from_rest_mass (rest_mass_from_gravitational_mass x).

End Rounding.

End Rounded.

(** ** How the operators act on real operands *)

Section Operators.

Local Open Scope value_scope.

Lemma py_div_real_divisor (a : value) (y : R) :
  y <> 0 -> (a / Real y) = Ok (arith Rdiv a y).
Proof.
  intros Hy. unfold py_div.
  destruct (Req_dec_T y 0) as [E | _]; [contradiction | reflexivity].
Qed.

Lemma py_div_real (x y : R) :
  y <> 0 -> (Real x / Real y) = Ok (Real (x / y)%R).
Proof. apply py_div_real_divisor. Qed.

Lemma py_div_zero (a : value) :
  (a / Real 0) = Raise ZeroDivisionError.
Proof.
  unfold py_div.
  destruct (Req_dec_T 0 0) as [_ | N]; [reflexivity | now elim N].
Qed.

Lemma py_pow_pos (x e : R) :
  0 < x -> Real x ** e = Real (Rpower x e).
Proof.
  intros Hx. unfold py_pow.
  destruct (Rlt_dec x 0) as [L | _]; [lra |].
  destruct (Req_dec_T x 0) as [E | _]; [lra | reflexivity].
Qed.

Lemma py_pow_zero (e : R) : Real 0 ** e = Real 0.
Proof.
  unfold py_pow.
  destruct (Rlt_dec 0 0) as [L | _]; [lra |].
  destruct (Req_dec_T 0 0) as [_ | N]; [reflexivity | now elim N].
Qed.

Lemma py_pow_neg (x e : R) : x < 0 -> Real x ** e = Complex.
Proof.
  intros Hx. unfold py_pow.
  destruct (Rlt_dec x 0) as [_ | N]; [reflexivity | contradiction].
Qed.

Lemma Rpower_one (e : R) : Rpower 1 e = 1.
Proof. unfold Rpower. now rewrite ln_1, Rmult_0_r, exp_0. Qed.

(** With the exponent [1/3], [**] is the cube root on non-negative
    reals. *)
Lemma py_pow_third_cube (x : R) :
  0 <= x ->
  exists u : R, 0 <= u /\ (u * u * u = x)%R /\ Real x ** (1/3) = Real u.
Proof.
  intros [Hx | <-].
  - exists (Rpower x (1/3)).
    assert (Hu : 0 < Rpower x (1/3)) by apply exp_pos.
    split; [lra |]. split; [| now apply py_pow_pos].
    replace (Rpower x (1/3) * Rpower x (1/3) * Rpower x (1/3))%R
      with (Rpower x (1/3) ^ 3)%R by ring.
    rewrite <- Rpower_pow by exact Hu.
    rewrite Rpower_mult.
    replace (1 / 3 * INR 3)%R with 1%R by (simpl; field).
    now apply Rpower_1.
  - exists 0%R. split; [lra |]. split; [ring | apply py_pow_zero].
Qed.

(** With the exponent [1/2], [**] is the square root on non-negative
    reals. *)
Lemma py_pow_half (x : R) : 0 <= x -> Real x ** (1/2) = Real (sqrt x).
Proof.
  intros [Hx | <-].
  - rewrite py_pow_pos by assumption.
    replace (1 / 2)%R with (/ 2)%R by lra.
    now rewrite Rpower_sqrt.
  - now rewrite py_pow_zero, sqrt_0.
Qed.

Lemma np_sqrt_nonneg (x : R) : 0 <= x -> np_sqrt (Real x) = Real (sqrt x).
Proof.
  intros Hx. unfold np_sqrt.
  destruct (Rlt_dec x 0) as [L | _]; [lra | reflexivity].
Qed.

Lemma np_sqrt_neg (x : R) : x < 0 -> np_sqrt (Real x) = NaN.
Proof.
  intros Hx. unfold np_sqrt.
  destruct (Rlt_dec x 0) as [_ | N]; [reflexivity | contradiction].
Qed.

Lemma py_ge_real_true (x y : R) :
  (x >= y)%R -> (Real x >= Real y) = Ok true.
Proof.
  intros H. unfold py_ge.
  destruct (Rge_dec x y) as [_ | N]; [reflexivity | contradiction].
Qed.

Lemma py_ge_real_false (x y : R) : x < y -> (Real x >= Real y) = Ok false.
Proof.
  intros H. unfold py_ge.
  destruct (Rge_dec x y) as [G | _]; [lra | reflexivity].
Qed.

End Operators.

(** ** The mass-conversion pair *)

Section MassConversion.

Import Exact.
Local Open Scope value_scope.

Local Abbreviation k := mass_conversion_constant.

Lemma rest_mass_real (g : R) :
  rest_mass_from_gravitational_mass (Real g) = Real (g + k * (g * g)).
Proof. reflexivity. Qed.

(** The argument of the square root, for a real rest mass. *)
Lemma gravitational_mass_real (r : R) :
  0 <= 1 + 4 * k * r ->
  gravitational_mass_from_rest_mass (Real r)
  = Ok (Real ((-1 + sqrt (1 + 4 * k * r)) / (2 * k))).
Proof.
  intros H. unfold gravitational_mass_from_rest_mass.
  cbn [py_mul py_add arith].
  rewrite np_sqrt_nonneg by exact H.
  cbn [py_mul py_add arith].
  apply py_div_real. unfold mass_conversion_constant. lra.
Qed.

Lemma gravitational_mass_nan (r : R) :
  1 + 4 * k * r < 0 ->
  gravitational_mass_from_rest_mass (Real r) = Ok NaN.
Proof.
  intros H. unfold gravitational_mass_from_rest_mass.
  cbn [py_mul py_add arith].
  rewrite np_sqrt_neg by exact H.
  cbn [py_mul py_add arith].
  unfold py_div.
  destruct (Req_dec_T (2 * mass_conversion_constant) 0) as [E | _];
    [unfold mass_conversion_constant in E; lra | reflexivity].
Qed.

(** The discriminant at the rest mass of [x] is the square of
    [1 + 2 k x]. *)
Lemma discriminant_square (x : R) :
  (1 + 4 * k * (x + k * (x * x)) = (1 + 2 * k * x) * (1 + 2 * k * x))%R.
Proof. ring. Qed.

(** Over the real numbers, converting a gravitational mass [x >= 0] to
    rest mass and back returns [x] exactly. *)
Lemma round_trip_exact (x : R) :
  0 <= x ->
  gravitational_mass_from_rest_mass (rest_mass_from_gravitational_mass x)
  = Ok (Real x).
Proof.
  intros Hx. rewrite rest_mass_real.
  assert (Hk : 0 < k) by (unfold mass_conversion_constant; lra).
  assert (Hpos : 0 <= 1 + 2 * k * x) by nra.
  rewrite gravitational_mass_real
    by (rewrite discriminant_square; apply Rmult_le_pos; exact Hpos).
  rewrite discriminant_square, sqrt_square by exact Hpos.
  do 2 f_equal. field. lra.
Qed.

(** C9: over the real numbers, converting a rest mass [y >= 0] to
    gravitational mass gives a real [g >= 0] whose rest mass is [y]. *)
Theorem rest_of_gravitational_of_rest (y : R) :
  0 <= y ->
  exists g : R,
    gravitational_mass_from_rest_mass y = Ok (Real g)
    /\ 0 <= g
    /\ rest_mass_from_gravitational_mass g = Real y.
Proof.
  intros Hy.
  assert (Hk : 0 < k) by (unfold mass_conversion_constant; lra).
  assert (Hd : 1 <= 1 + 4 * k * y) by nra.
  exists ((-1 + sqrt (1 + 4 * k * y)) / (2 * k))%R.
  split; [apply gravitational_mass_real; lra |].
  assert (Hs : 1 <= sqrt (1 + 4 * k * y))
    by (rewrite <- sqrt_1 at 1; apply sqrt_le_1_alt; exact Hd).
  assert (Hsq : (sqrt (1 + 4 * k * y) * sqrt (1 + 4 * k * y)
                 = 1 + 4 * k * y)%R) by (apply sqrt_sqrt; lra).
  split.
  - apply Rmult_le_pos; [lra |].
    apply Rlt_le, Rinv_0_lt_compat. lra.
  - rewrite rest_mass_real. f_equal.
    set (s := sqrt (1 + 4 * k * y)) in *.
    transitivity ((s * s - 1) / (4 * k))%R; [field; lra |].
    rewrite Hsq. field. lra.
Qed.

Lemma rest_of_gravitational_of_rest_witness :
  exists g : R,
    gravitational_mass_from_rest_mass 3 = Ok (Real g)
    /\ 0 <= g
    /\ rest_mass_from_gravitational_mass g = Real 3.
Proof. apply rest_of_gravitational_of_rest. lra. Defined.

(** Over the real numbers, for a rest mass below [-1/(4k)] the argument
    of the square root is negative and the function returns [nan]:
    neither a complex number nor a real one. *)
Lemma below_boundary_exact (rest_mass : R) :
  rest_mass < - 1 / (4 * k) ->
  1 + 4 * k * rest_mass < 0
  /\ gravitational_mass_from_rest_mass rest_mass = Ok NaN.
Proof.
  intros H.
  assert (Hk : 0 < 4 * k) by (unfold mass_conversion_constant; lra).
  assert (Hneg : 1 + 4 * k * rest_mass < 0).
  { apply (Rmult_lt_compat_l (4 * k)) in H; [| exact Hk].
    replace (4 * k * (- 1 / (4 * k)))%R with (-1)%R in H by (field; lra).
    lra. }
  split; [exact Hneg | now apply gravitational_mass_nan].
Qed.

End MassConversion.

(** ** The module on binary64 floats: runs and limits *)

Section Binary64Runs.

Import PrimFloat.
#[local] Set Warnings "-inexact-float".

(** The spec's worked case: two neutron stars of 1.2 and 1.3 solar masses
    leave a remnant of about 2.29 solar masses, below [1.2 * 2.1]. *)
Example total_gravitational_mass_run :
  Binary64.total_gravitational_mass 1.2 1.3 None
  = Ok 2.2910736237810925%float.
Proof. vm_compute. reflexivity. Qed.

Example bns_disruption_run :
  Binary64.bns_disruption 1.2 1.3 2.1 None = Ok false
  /\ Binary64.bns_disruption 1.6 1.6 2.1 None = Ok true.
Proof. split; vm_compute; reflexivity. Qed.

(** Below the boundary [-1/(4k)] the result is [nan]. *)
Example gravitational_mass_run_nan :
  is_nan (Binary64.gravitational_mass_from_rest_mass (-4)) = true.
Proof. vm_compute. reflexivity. Qed.

(** The round trip loses digits as the mass gets small: the last digit
    or so at 1.3, five digits at [1e-5], nine at [1e-10]. *)
Example round_trip_run :
  Binary64.round_trip 1.3 = Ok 1.2999999999999989%float
  /\ Binary64.round_trip 1e-5 = Ok 9.9999999999174829e-06%float
  /\ Binary64.round_trip 1e-10 = Ok 1.000000082740371e-10%float.
Proof. repeat split; vm_compute; reflexivity. Qed.

(** At [1e-17] the quadratic term and then [4 k x] are absorbed by the
    rounding of the sums, and the round trip returns zero. *)
Lemma round_trip_tiny : Binary64.round_trip 1e-17 = Ok 0%float.
Proof. vm_compute. reflexivity. Qed.

Lemma to_R_tiny :
  Binary64.to_R 1e-17 = (IZR 6490371073168535 * powerRZ 2 (-109))%R.
Proof.
  unfold Binary64.to_R.
  replace (FloatOps.Prim2SF 1e-17)
    with (SpecFloat.S754_finite false 6490371073168535 (-109))
    by (vm_compute; reflexivity).
  unfold Binary64.SF2R. ring.
Qed.

Lemma to_R_zero : Binary64.to_R 0%float = 0%R.
Proof.
  unfold Binary64.to_R.
  replace (FloatOps.Prim2SF 0%float) with (SpecFloat.S754_zero false)
    by (vm_compute; reflexivity).
  reflexivity.
Qed.

(** C3, the claim as stated, on floats: the round trip is not within the
    relative tolerance [1e-9] for every finite float [x >= 0]. *)
Lemma round_trip_not_within_tolerance :
  ~ (forall x : float,
        is_finite x = true -> leb 0 x = true ->
        exists y : float,
          Binary64.round_trip x = Ok y
          /\ Binary64.within_rel_tol 1e-9
               (Binary64.to_R y) (Binary64.to_R x)).
Proof.
  intros H.
  destruct (H 1e-17%float eq_refl eq_refl) as (y & Hy & Htol).
  rewrite round_trip_tiny in Hy. injection Hy as <-.
  unfold Binary64.within_rel_tol in Htol.
  rewrite to_R_zero, to_R_tiny in Htol.
  assert (Hp : 0 < powerRZ 2 (-109)) by (apply powerRZ_lt; lra).
  assert (Hm : 0 < IZR 6490371073168535) by (apply IZR_lt; reflexivity).
  assert (Hv : 0 < IZR 6490371073168535 * powerRZ 2 (-109))
    by (apply Rmult_lt_0_compat; assumption).
  set (v := (IZR 6490371073168535 * powerRZ 2 (-109))%R) in *.
  rewrite Rminus_0_l, Rabs_Ropp, (Rabs_pos_eq v) in Htol by lra.
  lra.
Qed.


(** C5, the claim as stated, on floats: for the mass [M = 1e200] and the
    spin 0, [mass**2] raises [OverflowError] and no radius is returned,
    whatever the orbit sense, the constants and [pow] are. *)
Lemma r_isco_schwarzschild_overflow :
  ltb 0 1e200 = true
  /\ forall (pow : float -> float -> float) (msun_si g_si c_si : float)
            (type_ : string),
       Binary64.calculate_r_isco pow msun_si g_si c_si 0 1e200 type_
       = Raise OverflowError.
Proof. split; intros; vm_compute; reflexivity. Qed.



(** C7, the claim as stated, on floats: the black-hole masses 5.7 and
    5.700000000000001 give the same quotient by [mns = 1.4], and the
    neutron-star masses 1.4 and 1.4000000000000001 the same quotient of
    [mbh = 3]: whatever [pow] is, the disruption radii are equal, not
    strictly ordered. *)
Lemma r_disruption_not_strict :
  ltb 5.7 5.700000000000001 = true
  /\ ltb 1.4 1.4000000000000001 = true
  /\ forall pow : float -> float -> float,
       Binary64.calculate_r_disruption pow 5.7 1.4 11
       = Binary64.calculate_r_disruption pow 5.700000000000001 1.4 11
       /\ Binary64.calculate_r_disruption pow 3 1.4 11
          = Binary64.calculate_r_disruption pow 3 1.4000000000000001 11
       /\ Binary64.calculate_r_disruption pow 5.7 1.4 11
          = Ok (11 * pow 4.071428571428572 (1 / 3))%float
       /\ Binary64.calculate_r_disruption pow 3 1.4 11
          = Ok (11 * pow 2.142857142857143 (1 / 3))%float.
Proof.
  split; [vm_compute; reflexivity |].
  split; [vm_compute; reflexivity |].
  intros pow. repeat split; vm_compute; reflexivity.
Qed.


End Binary64Runs.

(** ** The boundary of the inverse on binary64 floats *)

Section Binary64Boundary.

Import PrimFloat.
#[local] Set Warnings "-inexact-float".

Lemma sqrt_negative_nan (a : float) :
  ltb a 0 = true -> FloatOps.Prim2SF (sqrt a) = SpecFloat.S754_nan.
Proof.
  intros H. rewrite FloatAxioms.sqrt_spec.
  rewrite FloatAxioms.ltb_spec in H.
  destruct (FloatOps.Prim2SF a) as [s | s | | s m e]; cbn in *;
    try discriminate; try reflexivity;
    destruct s; cbn in *; try discriminate; reflexivity.
Qed.

Lemma add_nan (x y : float) :
  FloatOps.Prim2SF y = SpecFloat.S754_nan ->
  FloatOps.Prim2SF (x + y) = SpecFloat.S754_nan.
Proof.
  intros H. rewrite FloatAxioms.add_spec, H.
  destruct (FloatOps.Prim2SF x); reflexivity.
Qed.

Lemma div_nan (x y : float) :
  FloatOps.Prim2SF x = SpecFloat.S754_nan ->
  FloatOps.Prim2SF (x / y) = SpecFloat.S754_nan.
Proof.
  intros H. rewrite FloatAxioms.div_spec, H. reflexivity.
Qed.

Lemma is_nan_of_spec (x : float) :
  FloatOps.Prim2SF x = SpecFloat.S754_nan -> is_nan x = true.
Proof.
  intros H. unfold is_nan. rewrite FloatAxioms.eqb_spec, H. reflexivity.
Qed.

(** On floats, a negative argument of the square root gives [nan]. *)
Lemma gravitational_mass_nan_float (rest_mass : float) :
  ltb (1 + 4 * Binary64.mass_conversion_constant * rest_mass) 0 = true ->
  is_nan (Binary64.gravitational_mass_from_rest_mass rest_mass) = true.
Proof.
  intros H. unfold Binary64.gravitational_mass_from_rest_mass.
  apply is_nan_of_spec, div_nan, add_nan, sqrt_negative_nan, H.
Qed.

Lemma to_R_boundary :
  Binary64.to_R (-3.3333333333333335)
  = (- (IZR 7505999378950827 / IZR 2251799813685248))%R.
Proof.
  unfold Binary64.to_R.
  replace (FloatOps.Prim2SF (-3.3333333333333335))
    with (SpecFloat.S754_finite true 7505999378950827 (-51))
    by (vm_compute; reflexivity).
  unfold Binary64.SF2R.
  replace (powerRZ 2 (-51)) with (/ IZR 2251799813685248)%R.
  - field; try (apply not_0_IZR; discriminate).
  - unfold powerRZ. rewrite pow_IZR. f_equal.
Qed.

Lemma to_R_mass_conversion_constant :
  Binary64.to_R Binary64.mass_conversion_constant
  = (IZR 5404319552844595 / IZR 72057594037927936)%R.
Proof.
  unfold Binary64.to_R.
  replace (FloatOps.Prim2SF Binary64.mass_conversion_constant)
    with (SpecFloat.S754_finite false 5404319552844595 (-56))
    by (vm_compute; reflexivity).
  unfold Binary64.SF2R.
  replace (powerRZ 2 (-56)) with (/ IZR 72057594037927936)%R.
  - field; try (apply not_0_IZR; discriminate).
  - unfold powerRZ. rewrite pow_IZR. f_equal.
Qed.

(** C8, the claim as stated, on floats: the rest mass
    -3.3333333333333335 is below [-1/(4k)], for [k] the real number 0.075
    and for [k] the float of the module, yet [4 k rest_mass] rounds to
    -1, the argument of the square root is 0 and the result is the
    finite -6.666666666666667. *)
Lemma gravitational_mass_finite_below_boundary :
  (Binary64.to_R (-3.3333333333333335) < - 1 / (4 * 0.075))%R
  /\ (Binary64.to_R (-3.3333333333333335)
      < - 1 / (4 * Binary64.to_R Binary64.mass_conversion_constant))%R
  /\ Binary64.gravitational_mass_from_rest_mass (-3.3333333333333335)
     = (-6.666666666666667)%float
  /\ is_nan (Binary64.gravitational_mass_from_rest_mass
               (-3.3333333333333335)) = false.
Proof.
  rewrite to_R_boundary, to_R_mass_conversion_constant.
  split; [lra |]. split.
  - assert (H : (- 1 / (4 * (IZR 5404319552844595 / IZR 72057594037927936))
                 = - (IZR 72057594037927936 / (4 * IZR 5404319552844595)))%R)
      by (field; split; apply not_0_IZR; discriminate).
    rewrite H. lra.
  - split; vm_compute; reflexivity.
Qed.

(** C8, as amended: in exact real arithmetic a rest mass below
    [-1/(4k)] makes the argument of the square root negative and the
    function return [nan]; on binary64 floats the function returns [nan]
    whenever the argument of the square root, as computed, is
    negative. *)
Theorem gravitational_mass_below_boundary :
  (forall rest_mass : R,
      rest_mass < - 1 / (4 * Exact.mass_conversion_constant) ->
      1 + 4 * Exact.mass_conversion_constant * rest_mass < 0
      /\ Exact.gravitational_mass_from_rest_mass rest_mass = Ok NaN)
  /\ (forall rest_mass : float,
        ltb (1 + 4 * Binary64.mass_conversion_constant * rest_mass) 0 = true ->
        is_nan (Binary64.gravitational_mass_from_rest_mass rest_mass)
        = true).
Proof.
  split.
  - exact below_boundary_exact.
  - exact gravitational_mass_nan_float.
Qed.

Lemma gravitational_mass_below_boundary_witness :
  (1 + 4 * Exact.mass_conversion_constant * (-4) < 0
   /\ Exact.gravitational_mass_from_rest_mass (-4) = Ok NaN)
  /\ is_nan (Binary64.gravitational_mass_from_rest_mass (-4)) = true.
Proof.
  split.
  - apply (proj1 gravitational_mass_below_boundary).
    unfold Exact.mass_conversion_constant. lra.
  - apply (proj2 gravitational_mass_below_boundary).
    vm_compute. reflexivity.
Defined.

End Binary64Boundary.

(** ** The round trip with rounded operations *)

Section RoundedRoundTrip.

Variable rnd : R -> R.
Hypothesis rnd_standard : Rounded.standard_model rnd.

Local Abbreviation near e v v0 := (v0 * (1 - e) <= v <= v0 * (1 + e)).
Local Abbreviation W := 2.4e-16.

(** The relative error of a rounding is below [2.3e-16]. *)
Lemma rounding_error_bound : 0 < Rounded.rounding_error <= 2.3e-16.
Proof.
  unfold Rounded.rounding_error.
  replace (2 ^ 52) with 4503599627370496 by (rewrite pow_IZR; f_equal).
  split; lra.
Qed.

Lemma Rabs_le_between (a b : R) : Rabs a <= b -> - b <= a <= b.
Proof. unfold Rabs. destruct (Rcase_abs a); lra. Qed.

Lemma rnd_nonneg (v : R) :
  1e-300 <= v <= 1e305 ->
  v * (1 - 2.3e-16) <= rnd v <= v * (1 + 2.3e-16).
Proof.
  intros Hv. pose proof (rnd_standard v) as H.
  pose proof rounding_error_bound as HU.
  rewrite (Rabs_pos_eq v) in H by lra.
  apply Rabs_le_between in H; [| exact Hv].
  set (u := Rounded.rounding_error) in *. nra.
Qed.

(** [near e v v0]: [v] is within the relative error [e] of [v0 >= 0].
    A rounding adds at most [W] to a relative error. *)
Lemma near_rnd (e v v0 : R) :
  1e-299 <= v0 <= 1e304 -> 0 <= e <= 0.04 ->
  near e v v0 -> near (e + W) (rnd v) v0.
Proof.
  intros H0 He Hv.
  assert (Hrange : 1e-300 <= v <= 1e305) by nra.
  pose proof (rnd_nonneg v Hrange) as H. nra.
Qed.

Lemma near_weaken (e e' v v0 : R) :
  0 <= v0 -> e <= e' -> near e v v0 -> near e' v v0.
Proof. intros H0 He Hv. nra. Qed.

Lemma near_mul (e1 e2 a a0 b b0 : R) :
  0 <= a0 -> 0 <= b0 -> 0 <= e1 <= 1 -> 0 <= e2 <= 1 ->
  near e1 a a0 -> near e2 b b0 ->
  near (e1 + e2 + e1 * e2) (a * b) (a0 * b0).
Proof.
  intros Ha0 Hb0 He1 He2 Ha Hb.
  assert (0 <= a) by nra. assert (0 <= b) by nra.
  split.
  - apply Rle_trans with (a0 * (1 - e1) * (b0 * (1 - e2))).
    + assert (0 <= a0 * b0) by nra. nra.
    + apply Rmult_le_compat; nra.
  - apply Rle_trans with (a0 * (1 + e1) * (b0 * (1 + e2))).
    + apply Rmult_le_compat; nra.
    + assert (0 <= a0 * b0) by nra. nra.
Qed.

Lemma near_add (e a a0 b b0 : R) :
  near e a a0 -> near e b b0 -> near e (a + b) (a0 + b0).
Proof. intros Ha Hb. nra. Qed.

Lemma near_exact (v : R) : near 0 v v.
Proof. nra. Qed.

Lemma near_sqrt (e a s0 : R) :
  0 <= s0 -> 0 <= e <= 0.01 ->
  near e a (s0 * s0) -> near (0.51 * e) (sqrt a) s0.
Proof.
  intros Hs He Ha.
  assert (H0 : 0 <= s0 * s0) by nra.
  split.
  - rewrite <- (sqrt_square (s0 * (1 - 0.51 * e))) by nra.
    apply sqrt_le_1_alt.
    apply Rle_trans with (s0 * s0 * (1 - e)); [| lra].
    assert ((1 - 0.51 * e) * (1 - 0.51 * e) <= 1 - e) by nra.
    nra.
  - rewrite <- (sqrt_square (s0 * (1 + 0.51 * e))) by nra.
    apply sqrt_le_1_alt.
    apply Rle_trans with (s0 * s0 * (1 + e)); [lra |].
    assert (1 + e <= (1 + 0.51 * e) * (1 + 0.51 * e)) by nra.
    nra.
Qed.

Lemma near_div (e1 e2 a a0 b b0 : R) :
  0 <= a0 -> 0 < b0 -> 0 <= e1 <= 0.01 -> 0 <= e2 <= 0.01 ->
  near e1 a a0 -> near e2 b b0 ->
  near (e1 + 1.1 * e2) (a / b) (a0 / b0).
Proof.
  intros Ha0 Hb0 He1 He2 Ha Hb.
  assert (Hb' : 0 < b) by nra.
  assert (Hq : 0 <= a0 / b0) by (apply Rmult_le_pos; [lra | apply Rlt_le, Rinv_0_lt_compat; lra]).
  assert (Ea : a0 = a0 / b0 * b0) by (field; lra).
  set (q0 := a0 / b0) in *.
  split.
  - apply Rmult_le_reg_r with b; [exact Hb' |].
    replace (a / b * b) with a by (field; lra).
    apply Rle_trans with (q0 * (1 - (e1 + 1.1 * e2)) * (b0 * (1 + e2))).
    + apply Rmult_le_compat_l; [nra | lra].
    + apply Rle_trans with (a0 * (1 - e1)); [| lra].
      rewrite Ea at 1.
      assert ((1 - (e1 + 1.1 * e2)) * (1 + e2) <= 1 - e1) by nra.
      assert (0 <= q0 * b0) by nra. nra.
  - apply Rmult_le_reg_r with b; [exact Hb' |].
    replace (a / b * b) with a by (field; lra).
    apply Rle_trans with (q0 * (1 + (e1 + 1.1 * e2)) * (b0 * (1 - e2))).
    + apply Rle_trans with (a0 * (1 + e1)); [lra |].
      rewrite Ea at 1.
      assert (1 + e1 <= (1 + (e1 + 1.1 * e2)) * (1 - e2)) by nra.
      assert (0 <= q0 * b0) by nra. nra.
    + apply Rmult_le_compat_l; [nra | lra].
Qed.

Local Abbreviation k := (Rounded.mass_conversion_constant rnd).

Lemma mass_conversion_constant_near : near W k 0.075.
Proof.
  unfold Rounded.mass_conversion_constant.
  pose proof (rnd_nonneg 0.075) as H. lra.
Qed.

(** The rounded rest mass, against the exact one for the rounded
    constant [k]. *)
Lemma square_range (x : R) :
  1e-5 <= x <= 1e150 -> 1e-10 <= x * x <= 1e300.
Proof.
  intros Hx. split.
  - apply Rle_trans with (1e-5 * 1e-5); [lra |].
    apply Rmult_le_compat; lra.
  - apply Rle_trans with (1e150 * 1e150); [| lra].
    apply Rmult_le_compat; lra.
Qed.

Lemma rest_mass_range (x : R) :
  1e-5 <= x <= 1e150 ->
  1e-5 <= x + k * (x * x) <= 1e299.
Proof.
  intros Hx. pose proof (square_range x Hx) as Hxx.
  pose proof mass_conversion_constant_near as Hk.
  assert (Hk0 : 0.0749 <= k <= 0.0751) by lra.
  set (p := x * x) in *.
  assert (0 <= k * p <= 0.0751 * 1e300).
  { split; [apply Rmult_le_pos; lra |].
    apply Rmult_le_compat; lra. }
  lra.
Qed.

Lemma rest_mass_near (x : R) :
  1e-5 <= x <= 1e150 ->
  near (3 * W) (Rounded.rest_mass_from_gravitational_mass rnd x)
       (x + k * (x * x)).
Proof.
  intros Hx. unfold Rounded.rest_mass_from_gravitational_mass.
  pose proof mass_conversion_constant_near as Hk.
  assert (Hk0 : 0.0749 <= k <= 0.0751) by lra.
  pose proof (square_range x Hx) as Hxx.
  pose proof (rest_mass_range x Hx) as Hr.
  set (p := x * x) in *.
  assert (Hkp : 7.49e-12 <= k * p <= 1e299).
  { split.
    - apply Rle_trans with (0.0749 * 1e-10); [lra |].
      apply Rmult_le_compat; lra.
    - apply Rle_trans with (0.0751 * 1e300); [| lra].
      apply Rmult_le_compat; lra. }
  assert (Hp : near W (rnd p) p).
  { apply (near_weaken (0 + W)); [lra | lra |].
    apply near_rnd; [lra | lra | apply near_exact]. }
  assert (Hq : near (2 * W) (rnd (k * rnd p)) (k * p)).
  { apply (near_weaken (W + W)); [lra | lra |].
    apply near_rnd; [lra | lra |].
    apply (near_weaken (0 + W + 0 * W)); [lra | lra |].
    apply near_mul; first [lra | assumption | apply near_exact]. }
  apply (near_weaken (2 * W + W)); [lra | lra |].
  apply near_rnd; [lra | lra |].
  apply near_add; [| exact Hq].
  apply (near_weaken 0); [lra | lra | apply near_exact].
Qed.

Lemma sqrt_argument_near (x r : R) :
  1e-5 <= x <= 1e150 -> near (3 * W) r (x + k * (x * x)) ->
  near (6.1 * W)
       (rnd (1 + rnd (rnd (4 * k) * r)))
       ((1 + 2 * k * x) * (1 + 2 * k * x)).
Proof.
  intros Hx Hr.
  pose proof mass_conversion_constant_near as Hk.
  assert (Hk0 : 0.0749 <= k <= 0.0751) by lra.
  pose proof (rest_mass_range x Hx) as Hr0.
  replace ((1 + 2 * k * x) * (1 + 2 * k * x))
    with (1 + 4 * k * (x + k * (x * x))) by ring.
  set (r0 := x + k * (x * x)) in *.
  assert (Ht0 : 2.99e-6 <= 4 * k * r0 <= 1e299).
  { split.
    - apply Rle_trans with (4 * 0.0749 * 1e-5); [lra |].
      apply Rmult_le_compat; lra.
    - apply Rle_trans with (4 * 0.0751 * 1e299); [| lra].
      apply Rmult_le_compat; lra. }
  assert (Hc4 : near W (rnd (4 * k)) (4 * k)).
  { apply (near_weaken (0 + W)); [lra | lra |].
    apply near_rnd; [lra | lra | apply near_exact]. }
  assert (Ht : near (5.1 * W) (rnd (rnd (4 * k) * r)) (4 * k * r0)).
  { apply (near_weaken (W + 3 * W + W * (3 * W) + W)); [lra | lra |].
    apply near_rnd; [lra | lra |].
    apply near_mul; first [lra | assumption]. }
  apply (near_weaken (5.1 * W + W)); [lra | lra |].
  apply near_rnd; [lra | lra |].
  apply near_add; [| exact Ht].
  apply (near_weaken 0); [lra | lra | apply near_exact].
Qed.

(** From [1e-5] upwards the cancellation in [-1 + sqrt ...] leaves a
    relative error below [1e-9]. *)
Lemma gravitational_mass_near (x r : R) :
  1e-5 <= x <= 1e150 -> near (3 * W) r (x + k * (x * x)) ->
  near 1e-9 (Rounded.gravitational_mass_from_rest_mass rnd r) x.
Proof.
  intros Hx Hr. unfold Rounded.gravitational_mass_from_rest_mass.
  pose proof mass_conversion_constant_near as Hk.
  assert (Hk0 : 0.0749 <= k <= 0.0751) by lra.
  pose proof (sqrt_argument_near x r Hx Hr) as Ha.
  set (a := rnd (1 + rnd (rnd (4 * k) * r))) in *.
  assert (Hy : 1.498e-6 <= 2 * k * x <= 1e150).
  { split.
    - apply Rle_trans with (2 * 0.0749 * 1e-5); [lra |].
      apply Rmult_le_compat; lra.
    - apply Rle_trans with (2 * 0.0751 * 1e150); [| lra].
      apply Rmult_le_compat; lra. }
  set (s0 := 1 + 2 * k * x) in *.
  assert (Hs0 : 1 <= s0 <= 1e151) by (unfold s0; lra).
  assert (Hs : near (4.2 * W) (rnd (sqrt a)) s0).
  { apply (near_weaken (0.51 * (6.1 * W) + W)); [lra | lra |].
    apply near_rnd; [lra | lra |].
    apply near_sqrt; [lra | lra | exact Ha]. }
  set (s := rnd (sqrt a)) in *.
  assert (Hm : near 6.8e-10 (-1 + s) (2 * k * x)).
  { unfold s0 in Hs. nra. }
  assert (Hn : near (6.8e-10 + W) (rnd (-1 + s)) (2 * k * x)).
  { apply near_rnd; [lra | lra | exact Hm]. }
  assert (Hc2 : near W (rnd (2 * k)) (2 * k)).
  { apply (near_weaken (0 + W)); [lra | lra |].
    apply near_rnd; [lra | lra | apply near_exact]. }
  assert (Hq : near (6.8e-10 + W + 1.1 * W)
                    (rnd (-1 + s) / rnd (2 * k)) x).
  { pose proof (near_div (6.8e-10 + W) W (rnd (-1 + s)) (2 * k * x)
                  (rnd (2 * k)) (2 * k)) as H.
    replace (2 * k * x / (2 * k)) with x in H by (field; lra).
    apply H; first [lra | assumption]. }
  apply (near_weaken (6.8e-10 + W + 1.1 * W + W)); [lra | lra |].
  apply near_rnd; [lra | lra | exact Hq].
Qed.

End RoundedRoundTrip.

(** C3, as amended: in exact real arithmetic the round trip returns
    every [x >= 0] exactly; with operations rounded with a relative error
    of at most [2^-52] on the normal range it is within the relative
    tolerance [1e-9] for every [x] from [1e-5] to [1e150]. *)
Theorem round_trip_guarantee :
  (forall x : R,
      0 <= x ->
      Exact.gravitational_mass_from_rest_mass
        (Exact.rest_mass_from_gravitational_mass x) = Ok (Real x))
  /\ (forall rnd : R -> R,
        Rounded.standard_model rnd ->
        forall x : R,
          1e-5 <= x <= 1e150 ->
          Binary64.within_rel_tol 1e-9 (Rounded.round_trip rnd x) x).
Proof.
  split; [exact round_trip_exact |].
  intros rnd Hrnd x Hx.
  unfold Binary64.within_rel_tol, Rounded.round_trip.
  assert (Hr := rest_mass_near rnd Hrnd x Hx).
  assert (H := gravitational_mass_near rnd Hrnd x _ Hx Hr).
  rewrite (Rabs_pos_eq x) by lra.
  apply Rabs_le. lra.
Qed.

Lemma exact_rounding_standard : Rounded.standard_model (fun v : R => v).
Proof.
  intros v _. rewrite Rminus_diag, Rabs_R0.
  apply Rmult_le_pos; [| apply Rabs_pos].
  apply Rlt_le, rounding_error_bound.
Qed.

Lemma round_trip_guarantee_witness :
  Exact.gravitational_mass_from_rest_mass
    (Exact.rest_mass_from_gravitational_mass 2) = Ok (Real 2)
  /\ Binary64.within_rel_tol 1e-9
       (Rounded.round_trip (fun v : R => v) 1.4) 1.4.
Proof.
  split.
  - apply (proj1 round_trip_guarantee). lra.
  - apply (proj2 round_trip_guarantee);
      [exact exact_rounding_standard | lra].
Defined.


(** ** The jet-launch decision of a binary neutron-star merger *)

Section BnsDecision.

Import Exact.
Local Open Scope value_scope.
Local Abbreviation k := mass_conversion_constant.

(** The remnant mass the decision compares, as the source composes it. *)
Lemma total_gravitational_mass_unfold (m1 m2 ejecta_mass : value) :
  total_gravitational_mass m1 m2 (Some ejecta_mass)
  = gravitational_mass_from_rest_mass
      (rest_mass_from_gravitational_mass m1
       + rest_mass_from_gravitational_mass m2 - ejecta_mass).
Proof. reflexivity. Qed.


End BnsDecision.

Section BnsDecisionBinary64.

Import PrimFloat.
#[local] Set Warnings "-inexact-float".
Local Open Scope float_scope.

(** A square that is finite did not overflow. *)
Lemma float_sqr_finite (x : float) :
  is_finite (x * x) = true -> Binary64.float_sqr x = Ok (x * x).
Proof.
  intros H. unfold Binary64.float_sqr.
  unfold is_finite in H. apply negb_true_iff, orb_false_iff in H.
  destruct H as [_ H]. rewrite H, andb_false_r. reflexivity.
Qed.





End BnsDecisionBinary64.

(** ** The ISCO radius *)

Section Isco.

Import Exact.
Variables msun_si g_si c_si : R.
Hypothesis c_si_nonzero : c_si <> 0.
Local Open Scope value_scope.

(** For a non-zero mass the three quotients of lines 19 and 20 are
    functions of the dimensionless spin alone. *)
Lemma quotients (chi M : R) :
  M <> 0 ->
  (py_sqr (Real chi * Real M) / py_sqr (Real M)) = Ok (Real (chi * chi))
  /\ (Real chi * Real M / Real M) = Ok (Real chi)
  /\ (3 * py_sqr (Real chi * Real M) / py_sqr (Real M))
     = Ok (Real (3 * (chi * chi))).
Proof.
  intros HM. cbn [py_sqr py_mul arith].
  rewrite !py_div_real by nra.
  repeat split; do 2 f_equal; field; exact HM.
Qed.

Lemma r_isco_geometric_spin (chi M : R) (type_ : string) :
  M <> 0 ->
  r_isco_geometric chi M type_
  = read_local (r_isco_branch M (Z_1 (chi * chi)%R chi)
                  (Z_2 (3 * (chi * chi))%R (Z_1 (chi * chi)%R chi)) type_).
Proof.
  intros HM. unfold r_isco_geometric.
  destruct (quotients chi M HM) as (-> & -> & ->).
  reflexivity.
Qed.

(** A recognized orbit sense binds [r_isco], with one sign or the other
    in front of the square root. *)
Lemma r_isco_branch_recognized (type_ : string) :
  recognized type_ ->
  exists sign : R -> R -> R,
    (sign = Rminus \/ sign = Rplus)
    /\ forall mass Z1 Z2 : value,
        r_isco_branch mass Z1 Z2 type_
        = Some (mass * arith sign (3 + Z2)
                         (((3 - Z1) * (3 + Z1 + 2 * Z2)) ** (1/2))).
Proof.
  intros [-> | ->].
  - exists Rminus. split; [now left | reflexivity].
  - exists Rplus. split; [now right | reflexivity].
Qed.

Lemma to_km_real (x : R) :
  to_km msun_si g_si c_si (Real x)
  = Ok (Real (x * msun_si * g_si / c_si ^ 2 / 1000)).
Proof.
  unfold to_km. cbn [py_mul py_sqr arith].
  rewrite py_div_real by nra. cbn [bind].
  rewrite py_div_real by lra.
  do 2 f_equal. field. exact c_si_nonzero.
Qed.

Lemma to_km_not_real (v : value) :
  (forall x, v <> Real x) ->
  to_km msun_si g_si c_si v = Ok v.
Proof.
  intros Hv. unfold to_km.
  destruct v as [x | |]; [now elim (Hv x) | |];
    cbn [py_mul py_sqr arith];
    rewrite (py_div_real_divisor _ (c_si * c_si)) by nra; cbn [bind arith];
    rewrite (py_div_real_divisor _ 1000) by lra; reflexivity.
Qed.

(** *** The Schwarzschild limit *)

Lemma Z_1_spin_0 : Z_1 (0 * 0)%R 0 = Real 3.
Proof.
  unfold Z_1. cbn [py_sub py_add arith].
  replace (1 - 0 * 0)%R with 1%R by ring.
  replace (1 + 0)%R with 1%R by ring.
  replace (1 - 0)%R with 1%R by ring.
  rewrite py_pow_pos, Rpower_one by lra.
  cbn [py_add py_mul arith]. f_equal. ring.
Qed.

Lemma Z_2_spin_0 : Z_2 (3 * (0 * 0))%R (Real 3) = Real 3.
Proof.
  unfold Z_2. cbn [py_sqr py_add arith].
  rewrite py_pow_half by lra. f_equal.
  replace (3 * (0 * 0) + 3 * 3)%R with (3 * 3)%R by ring.
  apply sqrt_square. lra.
Qed.

Lemma r_isco_geometric_spin_0 (M : R) (type_ : string) :
  M <> 0 -> recognized type_ ->
  r_isco_geometric 0 M type_ = Ok (Real (6 * M)).
Proof.
  intros HM Hty. rewrite r_isco_geometric_spin by exact HM.
  rewrite Z_1_spin_0, Z_2_spin_0.
  destruct (r_isco_branch_recognized type_ Hty) as (sign & Hs & ->).
  cbn [read_local py_sub py_add py_mul arith].
  replace ((3 - 3) * (3 + 3 + 2 * 3))%R with 0%R by ring.
  rewrite py_pow_zero.
  destruct Hs as [-> | ->]; cbn [py_mul arith]; do 2 f_equal; ring.
Qed.

Lemma calculate_r_isco_spin_0 (M : R) (type_ : string) :
  M <> 0 -> recognized type_ ->
  calculate_r_isco msun_si g_si c_si 0 M type_
  = Ok (Real (6 * M * msun_si * g_si / c_si ^ 2 / 1000)).
Proof.
  intros HM Hty. unfold calculate_r_isco.
  rewrite r_isco_geometric_spin_0 by assumption. cbn [bind].
  apply to_km_real.
Qed.

(** In exact real arithmetic, at spin 0 and for a mass [M > 0], either
    orbit sense gives [6 M] in geometric units, hence
    [6 M msun_si g_si / c_si^2 / 1000] kilometres, and the two orbit
    senses return the same radius. *)
Lemma r_isco_schwarzschild_exact (M : R) (type_ : string) :
  0 < M -> recognized type_ ->
  r_isco_geometric 0 M type_ = Ok (Real (6 * M))
  /\ calculate_r_isco msun_si g_si c_si 0 M type_
     = Ok (Real (6 * M * msun_si * g_si / c_si ^ 2 / 1000))
  /\ calculate_r_isco msun_si g_si c_si 0 M "co_rotating"
     = calculate_r_isco msun_si g_si c_si 0 M "counter_rotating".
Proof.
  intros HM Hty.
  split; [apply r_isco_geometric_spin_0; [lra | exact Hty] |].
  split; [apply calculate_r_isco_spin_0; [lra | exact Hty] |].
  rewrite !calculate_r_isco_spin_0;
    [reflexivity | lra | now right | lra | now left].
Qed.

(** *** Extremal spin *)




(** *** Scaling with the mass *)


(** *** Spins of magnitude at most 1 *)

Lemma Z_1_physical (chi : R) :
  -1 <= chi <= 1 ->
  exists z1 : R, Z_1 (chi * chi)%R chi = Real z1 /\ 1 <= z1 <= 3.
Proof.
  intros Hchi. unfold Z_1. cbn [py_sub py_add arith].
  destruct (py_pow_third_cube (1 - chi * chi)) as (u & Hu & Hu3 & ->);
    [nra |].
  destruct (py_pow_third_cube (1 + chi)) as (a & Ha & Ha3 & ->); [lra |].
  destruct (py_pow_third_cube (1 - chi)) as (b & Hb & Hb3 & ->); [lra |].
  cbn [py_add py_mul arith].
  exists (1 + u * (a + b))%R. split; [reflexivity |].
  assert (Hu1 : u <= 1).
  { destruct (Rle_lt_dec u 1) as [L | L]; [exact L |].
    assert (H2 : 1 < u * u) by nra.
    assert (H3 : 0 < u * u * (u - 1)) by (apply Rmult_lt_0_compat; lra).
    nra. }
  assert (Hab : a + b <= 2).
  { assert (Hsum : (a * a * a + b * b * b = 2)%R) by lra.
    assert (Hpm : 0 <= (a + b) * ((a - b) * (a - b)))
      by (apply Rmult_le_pos; [lra | exact (Rle_0_sqr (a - b))]).
    destruct (Rle_lt_dec (a + b) 2) as [L | L]; [exact L |].
    assert (H2 : 4 < (a + b) * (a + b)) by nra.
    assert (H3 : 0 < ((a + b) * (a + b) - 4) * (a + b - 2))
      by (apply Rmult_lt_0_compat; lra).
    nra. }
  split; nra.
Qed.

(** Within the physical range of the spin the radius is a real number. *)
Lemma calculate_r_isco_physical (chi M : R) (type_ : string) :
  M <> 0 -> -1 <= chi <= 1 -> recognized type_ ->
  exists risco : R,
    calculate_r_isco msun_si g_si c_si chi M type_ = Ok (Real risco).
Proof.
  intros HM Hchi Hty. unfold calculate_r_isco.
  rewrite r_isco_geometric_spin by exact HM.
  destruct (Z_1_physical chi Hchi) as (z1 & -> & Hz1).
  unfold Z_2. cbn [py_sqr py_add arith].
  rewrite py_pow_half by nra.
  set (z2 := sqrt (3 * (chi * chi) + z1 * z1)).
  assert (Hz2 : 0 <= z2) by apply sqrt_pos.
  destruct (r_isco_branch_recognized type_ Hty) as (sign & _ & ->).
  cbn [py_sub py_add py_mul arith].
  rewrite py_pow_half by (apply Rmult_le_pos; lra).
  cbn [read_local bind py_mul arith].
  rewrite to_km_real. eexists. reflexivity.
Qed.


(** ** The tidal disruption radius and the NS-BH decision *)

Lemma calculate_r_disruption_pos (mbh mns rns : R) :
  0 < mbh -> 0 < mns ->
  calculate_r_disruption mbh mns rns
  = Ok (Real (rns * Rpower (mbh / mns) (1/3))).
Proof.
  intros Hbh Hns. unfold calculate_r_disruption.
  rewrite py_div_real by lra. cbn [bind].
  rewrite py_pow_pos by (apply Rdiv_lt_0_compat; assumption).
  reflexivity.
Qed.

Lemma cube_root_increasing (x y : R) :
  0 < x -> x < y -> Rpower x (1/3) < Rpower y (1/3).
Proof. intros Hx Hxy. apply Rlt_Rpower_l; lra. Qed.

(** C7, as amended: in exact real arithmetic, for [rns > 0] and positive
    masses the disruption radius is [rns * (mbh/mns)^(1/3)]; it grows
    strictly with [mbh] and falls strictly with [mns], the other
    arguments being fixed. *)
Theorem r_disruption_monotone (rns : R) :
  0 < rns ->
  (forall mbh mns : R, 0 < mbh -> 0 < mns ->
     calculate_r_disruption mbh mns rns
     = Ok (Real (rns * Rpower (mbh / mns) (1/3))))
  /\ (forall mns mbh1 mbh2 : R, 0 < mns -> 0 < mbh1 -> mbh1 < mbh2 ->
        exists r1 r2 : R,
          calculate_r_disruption mbh1 mns rns = Ok (Real r1)
          /\ calculate_r_disruption mbh2 mns rns = Ok (Real r2)
          /\ r1 < r2)
  /\ (forall mbh mns1 mns2 : R, 0 < mbh -> 0 < mns1 -> mns1 < mns2 ->
        exists r1 r2 : R,
          calculate_r_disruption mbh mns1 rns = Ok (Real r1)
          /\ calculate_r_disruption mbh mns2 rns = Ok (Real r2)
          /\ r2 < r1).
Proof.
  intros Hr. split; [| split].
  - intros. now apply calculate_r_disruption_pos.
  - intros mns mbh1 mbh2 Hns H1 H12.
    exists (rns * Rpower (mbh1 / mns) (1/3))%R,
           (rns * Rpower (mbh2 / mns) (1/3))%R.
    rewrite !calculate_r_disruption_pos by lra.
    split; [reflexivity |]. split; [reflexivity |].
    apply Rmult_lt_compat_l; [exact Hr |].
    apply cube_root_increasing.
    + apply Rdiv_lt_0_compat; assumption.
    + apply Rmult_lt_compat_r; [apply Rinv_0_lt_compat |]; assumption.
  - intros mbh mns1 mns2 Hbh H1 H12.
    exists (rns * Rpower (mbh / mns1) (1/3))%R,
           (rns * Rpower (mbh / mns2) (1/3))%R.
    rewrite !calculate_r_disruption_pos by lra.
    split; [reflexivity |]. split; [reflexivity |].
    apply Rmult_lt_compat_l; [exact Hr |].
    apply cube_root_increasing.
    + apply Rdiv_lt_0_compat; lra.
    + apply Rmult_lt_compat_l; [exact Hbh |].
      apply Rinv_lt_contravar; [apply Rmult_lt_0_compat; lra | exact H12].
Qed.



(** C4: with the orbit sense ['sideways'] neither branch binds [r_isco]
    and the unit conversion reads an unbound local: the call raises
    [UnboundLocalError], and so does [nsbh_disruption]. *)
Theorem r_isco_sideways :
  calculate_r_isco msun_si g_si c_si (1/2)%R 5 "sideways"
  = Raise UnboundLocalError
  /\ nsbh_disruption msun_si g_si c_si 5 1.4%R 11 (1/2)%R "sideways"
     = Raise UnboundLocalError.
Proof.
  assert (E : calculate_r_isco msun_si g_si c_si (1/2)%R 5 "sideways"
              = Raise UnboundLocalError).
  { unfold calculate_r_isco. rewrite r_isco_geometric_spin by lra.
    reflexivity. }
  split; [exact E |].
  unfold nsbh_disruption.
  rewrite calculate_r_disruption_pos by lra. cbn [bind].
  now rewrite E.
Qed.

End Isco.

(** ** The theorems at concrete inputs *)

(** ** The Schwarzschild radius on binary64 floats *)

Section SchwarzschildBinary64.

Import PrimFloat.
#[local] Set Warnings "-inexact-float".
Local Open Scope float_scope.

Lemma Prim2SF_inj (x y : float) :
  FloatOps.Prim2SF x = FloatOps.Prim2SF y -> x = y.
Proof.
  intros H. rewrite <- (FloatAxioms.SF2Prim_Prim2SF x), H.
  apply FloatAxioms.SF2Prim_Prim2SF.
Qed.

(** A finite float is a zero or a finite number. *)
Lemma is_finite_spec (x : float) :
  is_finite x = true ->
  (exists s, FloatOps.Prim2SF x = SpecFloat.S754_zero s)
  \/ (exists s m e, FloatOps.Prim2SF x = SpecFloat.S754_finite s m e).
Proof.
  unfold is_finite, is_nan, is_infinity. intros H.
  rewrite !FloatAxioms.eqb_spec, FloatAxioms.abs_spec in H.
  destruct (FloatOps.Prim2SF x) as [s | s | | s m e] eqn:E.
  - left. exists s. reflexivity.
  - exfalso. destruct s; vm_compute in H; discriminate H.
  - exfalso. vm_compute in H; discriminate H.
  - right. exists s, m, e. reflexivity.
Qed.

(** A positive float with a finite square is a positive finite number. *)
Lemma positive_spec (M : float) :
  (0 <? M) = true -> is_finite (M * M) = true ->
  exists m e, FloatOps.Prim2SF M = SpecFloat.S754_finite false m e.
Proof.
  intros Hpos Hfin.
  rewrite FloatAxioms.ltb_spec in Hpos.
  destruct (FloatOps.Prim2SF M) as [s | s | | s m e] eqn:E.
  - destruct s; vm_compute in Hpos; discriminate Hpos.
  - exfalso. apply is_finite_spec in Hfin.
    rewrite FloatAxioms.mul_spec, E in Hfin.
    destruct Hfin as [(s0 & H) | (s0 & m & e & H)];
      destruct s; vm_compute in H; discriminate H.
  - vm_compute in Hpos; discriminate Hpos.
  - destruct s.
    + vm_compute in Hpos; discriminate Hpos.
    + exists m, e. reflexivity.
Qed.

Lemma zero_mul_positive (M : float) :
  (0 <? M) = true -> is_finite (M * M) = true -> 0 * M = 0.
Proof.
  intros Hpos Hfin. destruct (positive_spec M Hpos Hfin) as (m & e & E).
  apply Prim2SF_inj. rewrite FloatAxioms.mul_spec, E. reflexivity.
Qed.

Lemma zero_div_positive (M : float) :
  (0 <? M) = true -> is_finite (M * M) = true -> 0 / M = 0.
Proof.
  intros Hpos Hfin. destruct (positive_spec M Hpos Hfin) as (m & e & E).
  apply Prim2SF_inj. rewrite FloatAxioms.div_spec, E. reflexivity.
Qed.

Lemma positive_nonzero (M : float) :
  (0 <? M) = true -> (M =? 0) = false.
Proof.
  intros Hpos. rewrite FloatAxioms.ltb_spec in Hpos.
  rewrite FloatAxioms.eqb_spec.
  destruct (FloatOps.Prim2SF M) as [s | s | | s m e];
    try (destruct s); try (vm_compute in Hpos; discriminate Hpos);
    reflexivity.
Qed.

Lemma nonzero_spec (t : float) :
  is_finite t = true -> (t =? 0) = false ->
  exists s m e, FloatOps.Prim2SF t = SpecFloat.S754_finite s m e.
Proof.
  intros Hfin Hnz. destruct (is_finite_spec t Hfin) as [(s & E) | H].
  - exfalso. rewrite FloatAxioms.eqb_spec, E in Hnz.
    destruct s; vm_compute in Hnz; discriminate Hnz.
  - exact H.
Qed.

(** Zero divided by a finite non-zero float is a zero of either sign. *)
Lemma zero_div_nonzero (t : float) :
  is_finite t = true -> (t =? 0) = false ->
  0 / t = 0 \/ 0 / t = -0.
Proof.
  intros Hfin Hnz. destruct (nonzero_spec t Hfin Hnz) as (s & m & e & E).
  destruct s; [right | left]; apply Prim2SF_inj;
    rewrite FloatAxioms.div_spec, E; reflexivity.
Qed.

Section ExactPowers.

(** What is used of the C library's [pow]: it is exact at the three
    powers the spin 0 leads to. *)
Variable pow : float -> float -> float.
Hypothesis pow_one : pow 1 (1 / 3) = 1.
Hypothesis pow_nine : pow 9 (1 / 2) = 3.
Hypothesis pow_zero : pow 0 (1 / 2) = 0.

(** At spin 0, for a positive mass whose square neither overflows nor
    underflows to zero, both orbit senses give the float [M * 6]. *)
Lemma r_isco_geometric_spin_0_binary64 (M : float) (type_ : string) :
  (0 <? M) = true -> is_finite (M * M) = true -> (M * M =? 0) = false ->
  Exact.recognized type_ ->
  Binary64.r_isco_geometric pow 0 M type_ = Ok (M * 6).
Proof.
  intros Hpos Hfin Hnz Htype.
  unfold Binary64.r_isco_geometric, Binary64.isco_quotient.
  rewrite (zero_mul_positive M Hpos Hfin).
  rewrite (float_sqr_finite M Hfin).
  change (Binary64.float_sqr 0) with (@Ok float 0).
  cbn [bind].
  replace (3 * 0) with 0 by (vm_compute; reflexivity).
  unfold Binary64.float_div at 1 4. rewrite Hnz.
  unfold Binary64.float_div. rewrite (positive_nonzero M Hpos).
  rewrite (zero_div_positive M Hpos Hfin).
  cbn [bind].
  assert (Hone : forall q, q = 0 \/ q = -0 -> 1 - q = 1).
  { intros q [-> | ->]; vm_compute; reflexivity. }
  assert (Hnine : forall q, q = 0 \/ q = -0 -> q + 9 = 9).
  { intros q [-> | ->]; vm_compute; reflexivity. }
  pose proof (zero_div_nonzero (M * M) Hfin Hnz) as Hq.
  rewrite (Hone _ Hq).
  replace (1 + 0) with 1 by (vm_compute; reflexivity).
  replace (1 - 0) with 1 by (vm_compute; reflexivity).
  unfold Binary64.float_pow at 1 2 3.
  replace (is_finite 1 && (1 <? 0)) with false by (vm_compute; reflexivity).
  cbn [bind]. rewrite pow_one.
  replace (1 + 1 * (1 + 1)) with 3 by (vm_compute; reflexivity).
  change (Binary64.float_sqr 3) with (@Ok float 9). cbn [bind].
  rewrite (Hnine _ Hq).
  unfold Binary64.float_pow at 1.
  replace (is_finite 9 && (9 <? 0)) with false by (vm_compute; reflexivity).
  cbn [bind]. rewrite pow_nine.
  unfold Binary64.r_isco_branch, Binary64.float_pow.
  replace ((3 - 3) * (3 + 3 + 2 * 3)) with 0 by (vm_compute; reflexivity).
  replace (is_finite 0 && (0 <? 0)) with false by (vm_compute; reflexivity).
  cbn [bind]. rewrite pow_zero.
  replace (3 + 3 - 0) with 6 by (vm_compute; reflexivity).
  replace (3 + 3 + 0) with 6 by (vm_compute; reflexivity).
  destruct Htype as [-> | ->]; reflexivity.
Qed.

Lemma calculate_r_isco_spin_0_binary64 (msun_si g_si c_si M : float)
    (type_ : string) :
  (0 <? M) = true -> is_finite (M * M) = true -> (M * M =? 0) = false ->
  Exact.recognized type_ ->
  Binary64.calculate_r_isco pow msun_si g_si c_si 0 M type_
  = Ok (M * 6 * msun_si * g_si / (c_si * c_si) / 1000).
Proof.
  intros Hpos Hfin Hnz Htype. unfold Binary64.calculate_r_isco.
  rewrite r_isco_geometric_spin_0_binary64 by assumption.
  reflexivity.
Qed.

End ExactPowers.

(** C5, as amended: at spin 0 and for a mass [M > 0], either orbit sense
    gives [6 M] in geometric units, hence [6 M msun_si g_si / c_si^2 /
    1000] kilometres, and the two orbit senses return the same radius:
    in exact real arithmetic for every [M > 0], and on floats for every
    [M > 0] whose square neither overflows nor underflows to zero, with
    the float products and quotients for the real ones, when the
    library's [pow] is exact at [1 ** (1/3)], [9 ** (1/2)] and
    [0 ** (1/2)]. *)
Theorem r_isco_schwarzschild :
  (forall msun_si g_si c_si : R,
      c_si <> 0%R ->
      forall (M : R) (type_ : string),
        (0 < M)%R -> Exact.recognized type_ ->
        Exact.r_isco_geometric 0%R M type_ = Ok (Real (6 * M))
        /\ Exact.calculate_r_isco msun_si g_si c_si 0%R M type_
           = Ok (Real (6 * M * msun_si * g_si / c_si ^ 2 / 1000))
        /\ Exact.calculate_r_isco msun_si g_si c_si 0%R M "co_rotating"
           = Exact.calculate_r_isco msun_si g_si c_si 0%R M
               "counter_rotating")
  /\ (forall pow : float -> float -> float,
        pow 1 (1 / 3) = 1 -> pow 9 (1 / 2) = 3 -> pow 0 (1 / 2) = 0 ->
        forall (msun_si g_si c_si M : float) (type_ : string),
          (0 <? M) = true ->
          is_finite (M * M) = true -> (M * M =? 0) = false ->
          Exact.recognized type_ ->
          Binary64.r_isco_geometric pow 0 M type_ = Ok (M * 6)
          /\ Binary64.calculate_r_isco pow msun_si g_si c_si 0 M type_
             = Ok (M * 6 * msun_si * g_si / (c_si * c_si) / 1000)
          /\ Binary64.calculate_r_isco pow msun_si g_si c_si 0 M
               "co_rotating"
             = Binary64.calculate_r_isco pow msun_si g_si c_si 0 M
                 "counter_rotating").
Proof.
  split.
  - intros msun_si g_si c_si Hc M type_ HM Htype.
    exact (r_isco_schwarzschild_exact msun_si g_si c_si Hc M type_ HM Htype).
  - intros pow H1 H9 H0 msun_si g_si c_si M type_ Hpos Hfin Hnz Htype.
    split; [now apply r_isco_geometric_spin_0_binary64 |].
    split; [now apply calculate_r_isco_spin_0_binary64 |].
    rewrite !calculate_r_isco_spin_0_binary64;
      first [reflexivity | assumption | now left | now right].
Qed.

End SchwarzschildBinary64.

Section Instances.

Import Exact.
Local Open Scope value_scope.

(** Values of the three constants in SI units (CODATA 2018, IAU 2015). *)
Local Abbreviation Msun := 1.988409870698051e30%R.
Local Abbreviation G := 6.6743e-11%R.
Local Abbreviation c := 299792458%R.

Lemma c_nonzero : c <> 0.
Proof. lra. Qed.

Lemma co_rotating_recognized : recognized "co_rotating".
Proof. now left. Qed.



Lemma r_disruption_monotone_witness :
  exists r1 r2 : R,
    calculate_r_disruption 5 1.4%R 11 = Ok (Real r1)
    /\ calculate_r_disruption 6 1.4%R 11 = Ok (Real r2)
    /\ r1 < r2.
Proof.
  apply (r_disruption_monotone 11); lra.
Defined.


(** The spec's worked case: a 5 solar-mass black hole without spin and a
    1.4 solar-mass, 11 km neutron star.  The disruption radius, below
    [11 * 5 / 1.4] km, is inside the ISCO at about 44.3 km: no
    disruption. *)
Example nsbh_disruption_plunge :
  nsbh_disruption Msun G c 5 1.4%R 11 0 "co_rotating" = Ok false.
Proof.
  unfold nsbh_disruption.
  rewrite calculate_r_disruption_pos by lra. cbn [bind].
  rewrite (calculate_r_isco_spin_0 Msun G c c_nonzero)
    by (lra || exact co_rotating_recognized).
  cbn [bind]. apply py_ge_real_false.
  assert (Hroot : Rpower (5 / 1.4) (1/3) < 5 / 1.4).
  { rewrite <- (Rpower_1 (5 / 1.4)) at 2 by lra.
    apply Rpower_lt; lra. }
  lra.
Qed.

End Instances.

Section SchwarzschildInstance.

Import PrimFloat.

Lemma r_isco_schwarzschild_witness :
  Exact.calculate_r_isco 1.988409870698051e30 6.6743e-11 299792458
    0 5 "co_rotating"%string
  = Ok (Real (6 * 5 * 1.988409870698051e30 * 6.6743e-11
              / 299792458 ^ 2 / 1000))
  /\ Binary64.r_isco_geometric
       (fun base exponent : float =>
          if eqb exponent 0.5 then sqrt base else base)
       0 5 "co_rotating"%string
     = Ok 30%float.
Proof.
  split.
  - apply (proj1 r_isco_schwarzschild
             1.988409870698051e30 6.6743e-11 299792458 c_nonzero
             5 "co_rotating"%string);
      [lra | exact co_rotating_recognized].
  - apply (proj2 r_isco_schwarzschild
             (fun base exponent : float =>
                if eqb exponent 0.5 then sqrt base else base)
             eq_refl eq_refl eq_refl 1%float 1%float 1%float 5%float
             "co_rotating"%string eq_refl eq_refl eq_refl co_rotating_recognized).
Defined.

End SchwarzschildInstance.

(** ** Further properties of the mass-conversion pair *)

Section MassOrder.

Import Exact.
Local Open Scope value_scope.
Local Abbreviation k := mass_conversion_constant.

Lemma k_value : k = 0.075.
Proof. reflexivity. Qed.

(** The formula of the inverse picks the root [g >= -1/(2k)] of
    [g + k g^2 = r]. *)
Lemma positive_root (r g : R) :
  0 <= 1 + 4 * k * r -> 0 <= 1 + 2 * k * g ->
  ((-1 + sqrt (1 + 4 * k * r)) / (2 * k) = g <-> r = g + k * (g * g))%R.
Proof.
  intros Hd Hg. rewrite k_value in *.
  split.
  - intros <-.
    set (s := sqrt (1 + 4 * 0.075 * r)).
    assert (Hs : (s * s = 1 + 4 * 0.075 * r)%R)
      by (apply sqrt_sqrt; exact Hd).
    symmetry. transitivity ((s * s - 1) / (4 * 0.075))%R; [field; lra |].
    rewrite Hs. field; lra.
  - intros ->.
    replace (1 + 4 * 0.075 * (g + 0.075 * (g * g)))%R
      with ((1 + 2 * 0.075 * g) * (1 + 2 * 0.075 * g))%R by ring.
    rewrite sqrt_square by exact Hg. field; lra.
Qed.

Lemma gravitational_mass_formula_increasing (r1 r2 : R) :
  0 <= 1 + 4 * k * r1 -> r1 < r2 ->
  (-1 + sqrt (1 + 4 * k * r1)) / (2 * k)
  < (-1 + sqrt (1 + 4 * k * r2)) / (2 * k).
Proof.
  intros Hd H12. rewrite k_value in *.
  assert (Hs : sqrt (1 + 4 * 0.075 * r1) < sqrt (1 + 4 * 0.075 * r2))
    by (apply sqrt_lt_1_alt; lra).
  apply Rmult_lt_compat_r; [lra | lra].
Qed.

(** X1: on non-negative gravitational masses the rest mass is never
    below the gravitational mass, exceeds it for a positive mass, and
    grows strictly with it. *)
Theorem rest_mass_above_gravitational (g1 g2 : R) :
  0 <= g1 -> g1 < g2 ->
  exists r1 r2 : R,
    rest_mass_from_gravitational_mass g1 = Real r1
    /\ rest_mass_from_gravitational_mass g2 = Real r2
    /\ g1 <= r1 /\ g2 < r2 /\ r1 < r2.
Proof.
  intros H1 H12. rewrite !rest_mass_real.
  exists (g1 + k * (g1 * g1))%R, (g2 + k * (g2 * g2))%R.
  split; [reflexivity |]. split; [reflexivity |].
  rewrite k_value. repeat split; nra.
Qed.

(** X2: [gravitational_mass_from_rest_mass] returns a real number exactly
    for the rest masses from [-1/(4k)] upwards. *)
Theorem gravitational_mass_real_iff (rest_mass : R) :
  (exists g : R, gravitational_mass_from_rest_mass rest_mass = Ok (Real g))
  <-> - 1 / (4 * k) <= rest_mass.
Proof.
  rewrite k_value. split.
  - intros (g & Hg).
    destruct (Rle_lt_dec (- 1 / (4 * 0.075)) rest_mass) as [L | L];
      [exact L |].
    rewrite gravitational_mass_nan in Hg by (rewrite k_value; lra).
    discriminate.
  - intros H. eexists.
    apply gravitational_mass_real. rewrite k_value. lra.
Qed.

(** X3: from the rest mass [-1/(4k)] upwards the gravitational mass
    returned is at least [-1/(2k)] and grows strictly with the rest
    mass. *)
Theorem gravitational_mass_increasing (r1 r2 : R) :
  - 1 / (4 * k) <= r1 -> r1 < r2 ->
  exists g1 g2 : R,
    gravitational_mass_from_rest_mass r1 = Ok (Real g1)
    /\ gravitational_mass_from_rest_mass r2 = Ok (Real g2)
    /\ - 1 / (2 * k) <= g1 /\ g1 < g2.
Proof.
  intros H1 H12.
  assert (Hd1 : 0 <= 1 + 4 * k * r1) by (rewrite k_value in *; lra).
  assert (Hd2 : 0 <= 1 + 4 * k * r2) by (rewrite k_value in *; lra).
  rewrite !gravitational_mass_real by assumption.
  do 2 eexists. split; [reflexivity |]. split; [reflexivity |].
  split; [| now apply gravitational_mass_formula_increasing].
  pose proof (sqrt_pos (1 + 4 * k * r1)) as Hs.
  rewrite k_value in *.
  apply Rmult_le_reg_r with (2 * 0.075)%R; [lra |].
  replace ((-1 + sqrt (1 + 4 * 0.075 * r1)) / (2 * 0.075) * (2 * 0.075))%R
    with (-1 + sqrt (1 + 4 * 0.075 * r1))%R by (field; lra).
  replace (- 1 / (2 * 0.075) * (2 * 0.075))%R with (-1)%R by (field; lra).
  lra.
Qed.

End MassOrder.

(** ** Further properties of the remnant mass *)

Section Remnant.

Import Exact.
Local Open Scope value_scope.
Local Abbreviation k := mass_conversion_constant.

Lemma py_add_comm (a b : value) : a + b = b + a.
Proof.
  destruct a, b; cbn [py_add arith]; try reflexivity.
  now rewrite Rplus_comm.
Qed.

(** X4: in exact real arithmetic, for real arguments, the remnant mass
    (a real number or [nan]) and the decision do not depend on the order
    of the two stars, with or without an [ejecta_mass] argument. *)
Theorem remnant_symmetric (m1 m2 mtov : R) (ejecta_mass : option R) :
  total_gravitational_mass m1 m2 (option_map Real ejecta_mass)
  = total_gravitational_mass m2 m1 (option_map Real ejecta_mass)
  /\ bns_disruption m1 m2 mtov (option_map Real ejecta_mass)
     = bns_disruption m2 m1 mtov (option_map Real ejecta_mass).
Proof.
  assert (E : forall e, total_gravitational_mass m1 m2 e
                        = total_gravitational_mass m2 m1 e).
  { intros e. unfold total_gravitational_mass. cbv zeta.
    now rewrite (py_add_comm (rest_mass_from_gravitational_mass m1)). }
  split; [apply E |].
  unfold bns_disruption. now rewrite E.
Qed.

(** The remnant of real masses is real when the rest mass left is at
    least [-1/(4k)], and [nan] below. *)
Lemma total_gravitational_mass_real (m1 m2 e : R) :
  0 <= 1 + 4 * k * (m1 + k * (m1 * m1) + (m2 + k * (m2 * m2)) - e) ->
  total_gravitational_mass m1 m2 (Some (Real e))
  = Ok (Real ((-1 + sqrt (1 + 4 * k * (m1 + k * (m1 * m1)
                                        + (m2 + k * (m2 * m2)) - e)))
              / (2 * k))).
Proof.
  intros H. rewrite total_gravitational_mass_unfold, !rest_mass_real.
  cbn [py_add py_sub arith]. now apply gravitational_mass_real.
Qed.

Lemma total_gravitational_mass_nan (m1 m2 e : R) :
  1 + 4 * k * (m1 + k * (m1 * m1) + (m2 + k * (m2 * m2)) - e) < 0 ->
  total_gravitational_mass m1 m2 (Some (Real e)) = Ok NaN.
Proof.
  intros H. rewrite total_gravitational_mass_unfold, !rest_mass_real.
  cbn [py_add py_sub arith]. now apply gravitational_mass_nan.
Qed.

(** X5: a star of mass [m >= 0] merged with a massless companion, with
    no ejecta, leaves a remnant of mass [m]. *)
Theorem remnant_of_single_star (m : R) :
  0 <= m -> total_gravitational_mass m 0 (Some (Real 0)) = Ok (Real m).
Proof.
  intros Hm.
  assert (Hg : 0 <= 1 + 2 * k * m) by (rewrite k_value; lra).
  rewrite total_gravitational_mass_real.
  - do 2 f_equal. apply positive_root.
    + rewrite k_value in *. nra.
    + exact Hg.
    + ring.
  - rewrite k_value in *. nra.
Qed.

(** X6: for non-negative masses and an ejecta mass between 0 and the
    summed rest masses, the remnant mass is a real number between 0 and
    the sum of the two gravitational masses. *)
Theorem remnant_mass_deficit (m1 m2 e : R) :
  0 <= m1 -> 0 <= m2 -> 0 <= e ->
  e <= m1 + k * (m1 * m1) + (m2 + k * (m2 * m2)) ->
  exists g : R,
    total_gravitational_mass m1 m2 (Some (Real e)) = Ok (Real g)
    /\ 0 <= g <= m1 + m2.
Proof.
  intros H1 H2 He Hle.
  set (r := (m1 + k * (m1 * m1) + (m2 + k * (m2 * m2)) - e)%R).
  assert (Hr : 0 <= r) by (unfold r; lra).
  assert (Hd : 0 <= 1 + 4 * k * r) by (rewrite k_value; lra).
  rewrite total_gravitational_mass_real by exact Hd. fold r.
  eexists. split; [reflexivity |].
  assert (Hs := sqrt_pos (1 + 4 * k * r)).
  assert (Hsq : (sqrt (1 + 4 * k * r) * sqrt (1 + 4 * k * r)
                 = 1 + 4 * k * r)%R) by (apply sqrt_sqrt; exact Hd).
  set (s := sqrt (1 + 4 * k * r)) in *.
  assert (Hrle : r <= (m1 + m2) + k * ((m1 + m2) * (m1 + m2)))
    by (unfold r; rewrite k_value; nra).
  rewrite k_value in *.
  assert (Hs1 : 1 <= s) by nra.
  assert (Hs2 : s <= 1 + 2 * 0.075 * (m1 + m2)) by nra.
  split.
  - apply Rmult_le_pos; [lra |]. apply Rlt_le, Rinv_0_lt_compat. lra.
  - apply Rmult_le_reg_r with (2 * 0.075)%R; [lra |].
    replace ((-1 + s) / (2 * 0.075) * (2 * 0.075))%R with (-1 + s)%R
      by (field; lra).
    lra.
Qed.

End Remnant.

(** ** Further properties of the jet-launch decision *)

Section BnsEdges.

Import Exact.
Local Open Scope value_scope.
Local Abbreviation k := mass_conversion_constant.

(** The decision on real inputs, in terms of the rest mass left. *)
Lemma bns_disruption_real (m1 m2 mtov e : R) :
  let r := (m1 + k * (m1 * m1) + (m2 + k * (m2 * m2)) - e)%R in
  bns_disruption m1 m2 mtov (Some (Real e))
  = Ok (if Rle_lt_dec 0 (1 + 4 * k * r)
        then if Rge_dec ((-1 + sqrt (1 + 4 * k * r)) / (2 * k)) (1.2 * mtov)
             then true else false
        else false).
Proof.
  intros r. unfold bns_disruption. cbn [default].
  destruct (Rle_lt_dec 0 (1 + 4 * k * r)) as [Hd | Hd].
  - rewrite total_gravitational_mass_real by exact Hd. reflexivity.
  - rewrite total_gravitational_mass_nan by exact Hd. reflexivity.
Qed.

(** A gravitational mass reaches a threshold [T >= 0] when the rest mass
    reaches the rest mass of [T]. *)
Lemma gravitational_mass_reaches (r T : R) :
  0 <= T -> 0 <= 1 + 4 * k * r ->
  ((-1 + sqrt (1 + 4 * k * r)) / (2 * k) >= T
   <-> T + k * (T * T) <= r)%R.
Proof.
  intros HT Hd.
  assert (Hs := sqrt_pos (1 + 4 * k * r)).
  assert (Hsq : (sqrt (1 + 4 * k * r) * sqrt (1 + 4 * k * r)
                 = 1 + 4 * k * r)%R) by (apply sqrt_sqrt; exact Hd).
  set (s := sqrt (1 + 4 * k * r)) in *.
  rewrite k_value in *.
  assert (Hg : ((-1 + s) / (2 * 0.075) >= T <-> 1 + 2 * 0.075 * T <= s)%R).
  { split; intros H.
    - apply Rge_le in H.
      apply (Rmult_le_compat_r (2 * 0.075)) in H; [| lra].
      replace ((-1 + s) / (2 * 0.075) * (2 * 0.075))%R with (-1 + s)%R in H
        by (field; lra).
      lra.
    - apply Rle_ge.
      apply Rmult_le_reg_r with (2 * 0.075)%R; [lra |].
      replace ((-1 + s) / (2 * 0.075) * (2 * 0.075))%R with (-1 + s)%R
        by (field; lra).
      lra. }
  rewrite Hg. split; intros H; nra.
Qed.

(** X7: for [mtov >= 0] the decision is [True] exactly when the rest mass
    left after the ejecta reaches the rest mass of a star of
    gravitational mass [1.2 * mtov]. *)
Theorem bns_disruption_rest_mass_form (m1 m2 mtov e : R) :
  0 <= mtov ->
  bns_disruption m1 m2 mtov (Some (Real e)) = Ok true
  <-> 1.2 * mtov + k * (1.2 * mtov * (1.2 * mtov))
      <= m1 + k * (m1 * m1) + (m2 + k * (m2 * m2)) - e.
Proof.
  intros Ht. rewrite bns_disruption_real. cbv zeta.
  set (r := (m1 + k * (m1 * m1) + (m2 + k * (m2 * m2)) - e)%R).
  set (T := (1.2 * mtov)%R).
  assert (HT : 0 <= T) by (unfold T; lra).
  destruct (Rle_lt_dec 0 (1 + 4 * k * r)) as [Hd | Hd].
  - destruct (Rge_dec ((-1 + sqrt (1 + 4 * k * r)) / (2 * k)) T) as [G | G].
    + split; [intros _ | reflexivity].
      now apply gravitational_mass_reaches.
    + split; [discriminate |]. intros H. exfalso.
      apply G. now apply gravitational_mass_reaches.
  - split; [discriminate |]. intros H. exfalso. rewrite k_value in *. nra.
Qed.

(** X8: a [True] decision stays [True] when non-negative masses grow,
    when [mtov] falls and when the ejecta mass falls. *)
Theorem bns_disruption_monotone (m1 m2 mtov e m1' m2' mtov' e' : R) :
  0 <= m1 -> 0 <= m2 -> m1 <= m1' -> m2 <= m2' ->
  mtov' <= mtov -> e' <= e ->
  bns_disruption m1 m2 mtov (Some (Real e)) = Ok true ->
  bns_disruption m1' m2' mtov' (Some (Real e')) = Ok true.
Proof.
  intros H1 H2 H1' H2' Ht He.
  rewrite !bns_disruption_real. cbv zeta.
  set (r := (m1 + k * (m1 * m1) + (m2 + k * (m2 * m2)) - e)%R).
  set (r' := (m1' + k * (m1' * m1') + (m2' + k * (m2' * m2')) - e')%R).
  assert (Hr : r <= r') by (unfold r, r'; rewrite k_value; nra).
  destruct (Rle_lt_dec 0 (1 + 4 * k * r)) as [Hd | Hd]; [| discriminate].
  destruct (Rge_dec ((-1 + sqrt (1 + 4 * k * r)) / (2 * k)) (1.2 * mtov))
    as [G | G]; [intros _ | discriminate].
  assert (Hd' : 0 <= 1 + 4 * k * r') by (rewrite k_value in *; lra).
  destruct (Rle_lt_dec 0 (1 + 4 * k * r')) as [_ | N]; [| lra].
  assert (Hs : sqrt (1 + 4 * k * r) <= sqrt (1 + 4 * k * r'))
    by (apply sqrt_le_1_alt; rewrite k_value; lra).
  assert (Hg : (-1 + sqrt (1 + 4 * k * r)) / (2 * k)
               <= (-1 + sqrt (1 + 4 * k * r')) / (2 * k)).
  { rewrite k_value in *. apply Rmult_le_compat_r; lra. }
  destruct (Rge_dec ((-1 + sqrt (1 + 4 * k * r')) / (2 * k)) (1.2 * mtov'))
    as [_ | N]; [reflexivity | exfalso; apply N; lra].
Qed.

(** X9: when the ejecta mass exceeds the summed rest masses by more than
    [1/(4k)], the remnant mass is [nan] and the decision is [False]; no
    exception is raised. *)
Theorem bns_disruption_excess_ejecta (m1 m2 mtov e : R) :
  m1 + k * (m1 * m1) + (m2 + k * (m2 * m2)) + 1 / (4 * k) < e ->
  total_gravitational_mass m1 m2 (Some (Real e)) = Ok NaN
  /\ bns_disruption m1 m2 mtov (Some (Real e)) = Ok false.
Proof.
  intros H.
  assert (Hd : 1 + 4 * k * (m1 + k * (m1 * m1) + (m2 + k * (m2 * m2)) - e)
               < 0) by (rewrite k_value in *; lra).
  assert (E := total_gravitational_mass_nan m1 m2 e Hd).
  split; [exact E |].
  unfold bns_disruption. cbn [default]. now rewrite E.
Qed.

(** X10: in exact real arithmetic (no square overflows), a [nan] in any
    one argument, the others being real, makes the decision [False]. *)
Theorem bns_disruption_nan (m1 m2 mtov e : R) :
  bns_disruption NaN m2 mtov (Some (Real e)) = Ok false
  /\ bns_disruption m1 NaN mtov (Some (Real e)) = Ok false
  /\ bns_disruption m1 m2 NaN (Some (Real e)) = Ok false
  /\ bns_disruption m1 m2 mtov (Some NaN) = Ok false.
Proof.
  assert (Hdiv : forall a : value,
             (a / (2 * k)) = Ok (arith Rdiv a (2 * k)%R)).
  { intros a. cbn [py_mul arith]. apply py_div_real_divisor.
    rewrite k_value. lra. }
  repeat split.
  - unfold bns_disruption, total_gravitational_mass,
      gravitational_mass_from_rest_mass. cbn [default].
    rewrite Hdiv. reflexivity.
  - unfold bns_disruption, total_gravitational_mass,
      gravitational_mass_from_rest_mass. cbn [default].
    rewrite Hdiv. reflexivity.
  - unfold bns_disruption. cbn [default].
    destruct (Rle_lt_dec 0 (1 + 4 * k * (m1 + k * (m1 * m1)
                                         + (m2 + k * (m2 * m2)) - e)))
      as [Hd | Hd].
    + rewrite total_gravitational_mass_real by exact Hd. reflexivity.
    + rewrite total_gravitational_mass_nan by exact Hd. reflexivity.
  - unfold bns_disruption, total_gravitational_mass,
      gravitational_mass_from_rest_mass. cbn [default].
    rewrite Hdiv. reflexivity.
Qed.

End BnsEdges.

(** ** Real inequalities behind the range of the ISCO radius *)

Lemma le_of_sqr_le (a b : R) : 0 <= a -> 0 <= b -> b * b <= a * a -> b <= a.
Proof. intros Ha Hb H. destruct (Rle_lt_dec b a) as [L | L]; [exact L | nra]. Qed.

Lemma cube_inj_nonneg (x y : R) :
  0 <= x -> 0 <= y -> x * x * x = y * y * y -> x = y.
Proof.
  intros Hx Hy H.
  destruct (Rtotal_order x y) as [L | [E | L]]; [| exact E |].
  - assert (0 < (y - x) * (x * x + x * y + y * y)) by (apply Rmult_lt_0_compat; nra).
    nra.
  - assert (0 < (x - y) * (x * x + x * y + y * y)) by (apply Rmult_lt_0_compat; nra).
    nra.
Qed.

Lemma isco_radius_bounds (w z d : R) :
  0 <= w <= 2 -> 0 <= z -> 0 <= d ->
  (3 * w + 2) * (z * z) = 8 * ((w + 1) * (w + 1)) ->
  d * d = (2 - w) * (4 + w + 2 * z) ->
  1 <= 3 + z - d /\ 3 + z - d <= 6 /\ 6 <= 3 + z + d /\ 3 + z + d <= 9.
Proof.
  intros Hw Hz Hd Hzz Hdd.
  assert (Hp : 0 < 3 * w + 2) by lra.
  assert (Hz2 : 4 <= z * z).
  { apply Rmult_le_reg_l with (3 * w + 2); [exact Hp |]. rewrite Hzz. nra. }
  assert (Hz9 : z * z <= 9).
  { apply Rmult_le_reg_l with (3 * w + 2); [exact Hp |]. rewrite Hzz. nra. }
  assert (Hzl : 2 <= z) by nra.
  assert (Hzu : z <= 3) by nra.
  assert (HC : d <= 2 + z).
  { apply le_of_sqr_le; [lra | exact Hd |]. rewrite Hdd. nra. }
  assert (HB : 3 - z <= d).
  { apply le_of_sqr_le; [exact Hd | lra |]. rewrite Hdd.
    (* (3-z)^2 <= (2-w)(4+w+2z)  <=>  z^2 + (w+1)^2 <= (10-2w) z *)
    assert (K : z * z + (w + 1) * (w + 1) <= (10 - 2 * w) * z).
    { apply le_of_sqr_le; [nra | nra |].
      apply Rmult_le_reg_l with ((3 * w + 2) * (3 * w + 2)); [nra |].
      replace ((3 * w + 2) * (3 * w + 2)
               * ((z * z + (w + 1) * (w + 1)) * (z * z + (w + 1) * (w + 1))))
        with (((3 * w + 2) * (z * z) + (3 * w + 2) * ((w + 1) * (w + 1)))
              * ((3 * w + 2) * (z * z) + (3 * w + 2) * ((w + 1) * (w + 1))))
        by ring.
      replace ((3 * w + 2) * (3 * w + 2)
               * ((10 - 2 * w) * z * ((10 - 2 * w) * z)))
        with ((3 * w + 2) * ((10 - 2 * w) * (10 - 2 * w))
              * ((3 * w + 2) * (z * z))) by ring.
      rewrite Hzz.
      assert (F : 0 <= (2 - w) * (750 + 2625 * w + 3000 * (w * w)
                    + 1134 * (w * w * w) + 18 * (w * w * w * w)
                    + 9 * (w * w * w * w * w))).
      { apply Rmult_le_pos; [lra |].
        assert (0 <= w * w) by nra. assert (0 <= w * w * w) by nra.
        assert (0 <= w * w * w * w) by nra.
        assert (0 <= w * w * w * w * w) by nra. lra. }
      nra. }
    nra. }
  assert (HD : d <= 6 - z).
  { apply le_of_sqr_le; [lra | exact Hd |]. rewrite Hdd.
    assert (K : (16 - 2 * w) * z <= z * z + w * w + 2 * w + 28).
    { apply le_of_sqr_le; [nra | nra |].
      apply Rmult_le_reg_l with ((3 * w + 2) * (3 * w + 2)); [nra |].
      replace ((3 * w + 2) * (3 * w + 2)
               * ((16 - 2 * w) * z * ((16 - 2 * w) * z)))
        with ((3 * w + 2) * ((16 - 2 * w) * (16 - 2 * w))
              * ((3 * w + 2) * (z * z))) by ring.
      replace ((3 * w + 2) * (3 * w + 2)
               * ((z * z + w * w + 2 * w + 28) * (z * z + w * w + 2 * w + 28)))
        with (((3 * w + 2) * (z * z) + (3 * w + 2) * (w * w + 2 * w + 28))
              * ((3 * w + 2) * (z * z) + (3 * w + 2) * (w * w + 2 * w + 28)))
        by ring.
      rewrite Hzz.
      assert (F : 0 <= 9 * (w * w * w) * (160 + 240 * w + w * w * w)).
      { assert (0 <= w * w * w) by nra. apply Rmult_le_pos; nra. }
      nra. }
    nra. }
  lra.
Qed.

(** ** Further properties of the ISCO radius *)

Section IscoEdges.

Import Exact.
Variables msun_si g_si c_si : R.
Hypothesis c_si_nonzero : c_si <> 0.
Local Open Scope value_scope.

Lemma r_isco_geometric_zero_mass (chi : value) (type_ : string) :
  r_isco_geometric chi 0 type_ = Raise ZeroDivisionError.
Proof.
  unfold r_isco_geometric. cbn [py_sqr arith].
  replace (0 * 0)%R with 0%R by ring.
  now rewrite py_div_zero.
Qed.

(** X11: a zero mass raises [ZeroDivisionError]: a zero [mass] in
    [calculate_r_isco], whatever the spin and even for an orbit sense
    that is not recognized; a zero [mns] in [calculate_r_disruption];
    a zero [mns] or a zero [mbh] in [nsbh_disruption]. *)
Theorem zero_mass_raises (chi mns rns : value) (mbh : R) (type_ : string) :
  calculate_r_isco msun_si g_si c_si chi 0 type_ = Raise ZeroDivisionError
  /\ calculate_r_disruption mbh 0 rns = Raise ZeroDivisionError
  /\ nsbh_disruption msun_si g_si c_si mbh 0 rns chi type_
     = Raise ZeroDivisionError
  /\ nsbh_disruption msun_si g_si c_si 0 mns rns chi type_
     = Raise ZeroDivisionError.
Proof.
  assert (Hi : calculate_r_isco msun_si g_si c_si chi 0 type_
               = Raise ZeroDivisionError).
  { unfold calculate_r_isco. now rewrite r_isco_geometric_zero_mass. }
  assert (Hd : calculate_r_disruption mbh 0 rns = Raise ZeroDivisionError).
  { unfold calculate_r_disruption. now rewrite py_div_zero. }
  split; [exact Hi |]. split; [exact Hd |].
  split; [unfold nsbh_disruption; now rewrite Hd |].
  unfold nsbh_disruption.
  destruct (calculate_r_disruption 0 mns rns) as [rdis | e |] eqn:E;
    cbn [bind].
  - now rewrite Hi.
  - unfold calculate_r_disruption, py_div in E.
    destruct mns as [y | |]; [destruct (Req_dec_T y 0) |  |];
      cbn [bind] in E; congruence.
  - unfold calculate_r_disruption, py_div in E.
    destruct mns as [y | |]; [destruct (Req_dec_T y 0) |  |];
      cbn [bind] in E; discriminate E.
Qed.

Lemma r_isco_branch_unrecognized (mass Z1 Z2 : value) (type_ : string) :
  ~ recognized type_ -> r_isco_branch mass Z1 Z2 type_ = None.
Proof.
  intros H. unfold r_isco_branch.
  destruct (String.eqb_spec type_ "co_rotating") as [E | _];
    [elim H; now left |].
  destruct (String.eqb_spec type_ "counter_rotating") as [E | _];
    [elim H; now right | reflexivity].
Qed.

(** X12: in exact real arithmetic (no square overflows or underflows to
    zero), for a real spin and non-zero real masses, every orbit sense
    other than the two recognized ones raises [UnboundLocalError], in
    [calculate_r_isco] and in [nsbh_disruption]. *)
Theorem unrecognized_sense_raises (chi M mns rns : R) (type_ : string) :
  M <> 0 -> mns <> 0 -> ~ recognized type_ ->
  calculate_r_isco msun_si g_si c_si chi M type_ = Raise UnboundLocalError
  /\ nsbh_disruption msun_si g_si c_si M mns rns chi type_
     = Raise UnboundLocalError.
Proof.
  intros HM Hns Hty.
  assert (E : calculate_r_isco msun_si g_si c_si chi M type_
              = Raise UnboundLocalError).
  { unfold calculate_r_isco. rewrite r_isco_geometric_spin by exact HM.
    now rewrite r_isco_branch_unrecognized. }
  split; [exact E |].
  unfold nsbh_disruption, calculate_r_disruption.
  rewrite py_div_real by exact Hns. cbn [bind]. now rewrite E.
Qed.

(** X13: in exact real arithmetic, for a spin of magnitude at most 1 the
    sign of the spin has no effect: [calculate_r_isco] has the same
    outcome for [-chi] and [chi], a real radius when the mass is not
    zero and the orbit sense is recognized; only [type_] selects the
    orbit sense. *)
Theorem spin_sign_irrelevant (chi M : R) (type_ : string) :
  -1 <= chi <= 1 ->
  calculate_r_isco msun_si g_si c_si (- chi)%R M type_
  = calculate_r_isco msun_si g_si c_si chi M type_
  /\ (M <> 0 -> recognized type_ ->
      exists r : R,
        calculate_r_isco msun_si g_si c_si chi M type_ = Ok (Real r)).
Proof.
  intros Hchi.
  split; [| intros HM Hty;
            now apply (calculate_r_isco_physical msun_si g_si c_si)].
  unfold calculate_r_isco.
  destruct (Req_dec_T M 0) as [-> | HM].
  - now rewrite !r_isco_geometric_zero_mass.
  - rewrite !r_isco_geometric_spin by exact HM.
    replace (- chi * - chi)%R with (chi * chi)%R by ring.
    assert (E : Z_1 (chi * chi)%R (- chi)%R = Z_1 (chi * chi)%R chi).
    { unfold Z_1. cbn [py_add py_sub arith].
      replace (1 + - chi)%R with (1 - chi)%R by ring.
      replace (1 - - chi)%R with (1 + chi)%R by ring.
      now rewrite (py_add_comm (Real (1 - chi) ** (1 / 3))). }
    now rewrite E.
Qed.

Lemma Z_1_beyond_extremal (chi : R) :
  1 < chi * chi -> Z_1 (chi * chi)%R chi = Complex.
Proof.
  intros H. unfold Z_1. cbn [py_sub arith].
  rewrite (py_pow_neg (1 - chi * chi)) by lra.
  destruct (Real (1 + chi) ** (1 / 3) + Real (1 - chi) ** (1 / 3));
    reflexivity.
Qed.

(** X14: in exact real arithmetic, for a spin of magnitude above 1, a
    non-zero mass and a recognized orbit sense, [calculate_r_isco]
    returns a complex number: no exception and no [nan]. *)
Theorem beyond_extremal_spin_complex (chi M : R) (type_ : string) :
  1 < Rabs chi -> M <> 0 -> recognized type_ ->
  calculate_r_isco msun_si g_si c_si chi M type_ = Ok Complex.
Proof.
  intros Hchi HM Hty.
  assert (H : 1 < chi * chi).
  { unfold Rabs in Hchi. destruct (Rcase_abs chi); nra. }
  unfold calculate_r_isco.
  rewrite r_isco_geometric_spin by exact HM.
  rewrite Z_1_beyond_extremal by exact H.
  destruct (r_isco_branch_recognized type_ Hty) as (sign & _ & ->).
  cbn [read_local bind py_sqr py_add py_sub py_mul arith Z_2 py_pow].
  apply to_km_not_real; try assumption. discriminate.
Qed.
Lemma Z_1_param (chi : R) :
  -1 <= chi <= 1 ->
  exists w : R,
    Z_1 (chi * chi)%R chi = Real (1 + w)
    /\ 0 <= w <= 2
    /\ (w * w * w = (1 - chi * chi) * (3 * w + 2))%R.
Proof.
  intros Hchi.
  destruct (Z_1_physical chi Hchi) as (z1 & E & Hz1).
  revert E. unfold Z_1. cbn [py_sub py_add arith].
  destruct (py_pow_third_cube (1 - chi * chi)) as (u & Hu & Hu3 & ->);
    [nra |].
  destruct (py_pow_third_cube (1 + chi)) as (a & Ha & Ha3 & ->); [lra |].
  destruct (py_pow_third_cube (1 - chi)) as (b & Hb & Hb3 & ->); [lra |].
  cbn [py_add py_mul arith]. intros E. injection E as E.
  exists (u * (a + b))%R. split; [reflexivity |]. split; [lra |].
  assert (Hab : u = (a * b)%R).
  { apply cube_inj_nonneg; [exact Hu | nra |].
    replace (a * b * (a * b) * (a * b))%R
      with ((a * a * a) * (b * b * b))%R by ring.
    rewrite Hu3, Ha3, Hb3. ring. }
  replace (u * (a + b) * (u * (a + b)) * (u * (a + b)))%R
    with ((u * u * u) * (a * a * a + b * b * b + 3 * (a * b) * (a + b)))%R
    by ring.
  rewrite <- Hab, Hu3, Ha3, Hb3. ring.
Qed.

Lemma r_isco_geometric_range (chi M : R) :
  M <> 0 -> -1 <= chi <= 1 ->
  exists co counter : R,
    r_isco_geometric chi M "co_rotating" = Ok (Real (M * co))
    /\ r_isco_geometric chi M "counter_rotating" = Ok (Real (M * counter))
    /\ 1 <= co /\ co <= 6 /\ 6 <= counter /\ counter <= 9.
Proof.
  intros HM Hchi.
  rewrite !r_isco_geometric_spin by exact HM.
  destruct (Z_1_param chi Hchi) as (w & -> & Hw & Hw3).
  unfold Z_2. cbn [py_sqr py_add arith].
  rewrite py_pow_half by nra.
  set (z := sqrt (3 * (chi * chi) + (1 + w) * (1 + w))).
  assert (Hz : 0 <= z) by apply sqrt_pos.
  assert (Hzz : (z * z = 3 * (chi * chi) + (1 + w) * (1 + w))%R)
    by (apply sqrt_sqrt; nra).
  cbn [r_isco_branch String.eqb Ascii.eqb Bool.eqb read_local
       py_sub py_add py_mul arith].
  assert (HD : 0 <= (3 - (1 + w)) * (3 + (1 + w) + 2 * z))
    by (apply Rmult_le_pos; lra).
  rewrite py_pow_half by exact HD.
  set (d := sqrt ((3 - (1 + w)) * (3 + (1 + w) + 2 * z))).
  assert (Hd : 0 <= d) by apply sqrt_pos.
  assert (Hdd : (d * d = (3 - (1 + w)) * (3 + (1 + w) + 2 * z))%R)
    by (apply sqrt_sqrt; exact HD).
  cbn [py_sub py_add py_mul arith].
  exists (3 + z - d)%R, (3 + z + d)%R.
  split; [reflexivity |]. split; [reflexivity |].
  apply (isco_radius_bounds w z d Hw Hz Hd).
  - rewrite Hzz. nra.
  - rewrite Hdd. ring.
Qed.

(** X15: for a mass [M > 0] and a spin of magnitude at most 1, the ISCO
    radius in geometric units lies between [M] and [6 M] for the
    co-rotating orbit and between [6 M] and [9 M] for the
    counter-rotating one. *)
Theorem r_isco_physical_range (chi M : R) :
  0 < M -> -1 <= chi <= 1 ->
  exists r_co r_counter : R,
    r_isco_geometric chi M "co_rotating" = Ok (Real r_co)
    /\ r_isco_geometric chi M "counter_rotating" = Ok (Real r_counter)
    /\ M <= r_co /\ r_co <= 6 * M /\ 6 * M <= r_counter
    /\ r_counter <= 9 * M.
Proof.
  intros HM Hchi.
  destruct (r_isco_geometric_range chi M) as
    (co & counter & -> & -> & H1 & H2 & H3 & H4); [lra | exact Hchi |].
  exists (M * co)%R, (M * counter)%R.
  split; [reflexivity |]. split; [reflexivity |]. repeat split; nra.
Qed.

Lemma calculate_r_isco_range (chi M : R) :
  M <> 0 -> -1 <= chi <= 1 ->
  exists co counter : R,
    calculate_r_isco msun_si g_si c_si chi M "co_rotating"
    = Ok (Real (M * co * msun_si * g_si / c_si ^ 2 / 1000))
    /\ calculate_r_isco msun_si g_si c_si chi M "counter_rotating"
       = Ok (Real (M * counter * msun_si * g_si / c_si ^ 2 / 1000))
    /\ 1 <= co /\ co <= 6 /\ 6 <= counter /\ counter <= 9.
Proof.
  intros HM Hchi. unfold calculate_r_isco.
  destruct (r_isco_geometric_range chi M HM Hchi) as
    (co & counter & -> & -> & H).
  exists co, counter. cbn [bind].
  rewrite !to_km_real by exact c_si_nonzero.
  split; [reflexivity |]. split; [reflexivity | exact H].
Qed.

Lemma py_ge_real_true_inv (x y : R) :
  (Real x >= Real y) = Ok true -> (x >= y)%R.
Proof.
  unfold py_ge. destruct (Rge_dec x y) as [G | _]; [trivial | discriminate].
Qed.

(** X16: with positive masses, a spin of magnitude at most 1 and
    [msun_si * g_si >= 0], a neutron star disrupted on the
    counter-rotating orbit is disrupted on the co-rotating orbit too. *)
Theorem nsbh_disruption_co_rotating_favoured (mbh mns rns chi : R) :
  0 < mbh -> 0 < mns -> -1 <= chi <= 1 -> 0 <= msun_si * g_si ->
  nsbh_disruption msun_si g_si c_si mbh mns rns chi "counter_rotating"
  = Ok true ->
  nsbh_disruption msun_si g_si c_si mbh mns rns chi "co_rotating" = Ok true.
Proof.
  intros Hbh Hns Hchi Hconv. unfold nsbh_disruption.
  rewrite calculate_r_disruption_pos by assumption. cbn [bind].
  destruct (calculate_r_isco_range chi mbh) as
    (co & counter & -> & -> & H1 & H2 & H3 & H4); [lra | exact Hchi |].
  cbn [bind]. intros H. apply py_ge_real_true_inv in H.
  apply py_ge_real_true.
  assert (Hc2 : 0 < c_si ^ 2) by (simpl; nra).
  assert (Hf : 0 <= msun_si * g_si / c_si ^ 2 / 1000).
  { apply Rmult_le_pos; [| lra].
    apply Rmult_le_pos; [exact Hconv |]. apply Rlt_le, Rinv_0_lt_compat, Hc2. }
  replace (mbh * co * msun_si * g_si / c_si ^ 2 / 1000)%R
    with (mbh * co * (msun_si * g_si / c_si ^ 2 / 1000))%R
    by (field; exact c_si_nonzero).
  replace (mbh * counter * msun_si * g_si / c_si ^ 2 / 1000)%R
    with (mbh * counter * (msun_si * g_si / c_si ^ 2 / 1000))%R in H
    by (field; exact c_si_nonzero).
  set (f := (msun_si * g_si / c_si ^ 2 / 1000)%R) in *.
  assert (mbh * co * f <= mbh * counter * f) by
    (apply Rmult_le_compat_r; [exact Hf | nra]).
  lra.
Qed.

(** X17: with a positive black-hole mass, a spin of magnitude at most 1
    and a recognized orbit sense, a [True] decision stays [True] for a
    larger neutron-star radius and a lighter (positive-mass) neutron
    star. *)
Theorem nsbh_disruption_monotone (mbh mns rns chi mns' rns' : R)
    (type : string) :
  0 < mbh -> -1 <= chi <= 1 -> recognized type ->
  0 < mns' -> mns' <= mns -> 0 <= rns -> rns <= rns' ->
  nsbh_disruption msun_si g_si c_si mbh mns rns chi type = Ok true ->
  nsbh_disruption msun_si g_si c_si mbh mns' rns' chi type = Ok true.
Proof.
  intros Hbh Hchi Hty Hns' Hns Hr Hr'. unfold nsbh_disruption.
  rewrite !calculate_r_disruption_pos by lra. cbn [bind].
  destruct (calculate_r_isco_physical msun_si g_si c_si c_si_nonzero
              chi mbh type) as (risco & ->); [lra | exact Hchi | exact Hty |].
  cbn [bind]. intros H. apply py_ge_real_true_inv in H.
  apply py_ge_real_true.
  assert (Hq : Rpower (mbh / mns) (1/3) <= Rpower (mbh / mns') (1/3)).
  { apply Rle_Rpower_l; [lra |]. split.
    - apply Rdiv_lt_0_compat; lra.
    - apply Rmult_le_compat_l; [lra |].
      apply Rinv_le_contravar; lra. }
  assert (Hp : 0 < Rpower (mbh / mns) (1/3)) by apply exp_pos.
  assert (rns * Rpower (mbh / mns) (1/3)
          <= rns' * Rpower (mbh / mns') (1/3)) by nra.
  lra.
Qed.
End IscoEdges.

(** ** Further properties of the tidal disruption radius *)

Section DisruptionRadius.

Import Exact.
Local Open Scope value_scope.

(** X18: in exact real arithmetic, for a mass ratio that is not
    negative, the disruption radius is a real number that depends on the
    two masses through their ratio only: scaling both by the same
    non-zero factor gives the same radius. *)
Theorem r_disruption_mass_ratio (lambda mbh mns rns : R) :
  lambda <> 0 -> mns <> 0 -> 0 <= mbh * mns ->
  exists r : R,
    calculate_r_disruption mbh mns rns = Ok (Real r)
    /\ calculate_r_disruption (lambda * mbh)%R (lambda * mns)%R rns
       = Ok (Real r).
Proof.
  intros Hl Hns Hsign.
  assert (Hq : 0 <= mbh / mns).
  { replace (mbh / mns)%R with (mbh * mns * (/ mns * / mns))%R
      by (field; exact Hns).
    apply Rmult_le_pos; [exact Hsign |].
    replace (/ mns * / mns)%R with (Rsqr (/ mns)) by reflexivity.
    apply Rle_0_sqr. }
  destruct (py_pow_third_cube (mbh / mns) Hq) as (u & _ & _ & Hu).
  exists (rns * u)%R. unfold calculate_r_disruption.
  rewrite !py_div_real
    by (try apply Rmult_integral_contrapositive_currified; assumption).
  replace (lambda * mbh / (lambda * mns))%R with (mbh / mns)%R
    by (field; split; assumption).
  cbn [bind]. rewrite Hu. split; reflexivity.
Qed.

(** X19: for equal non-zero masses the disruption radius is the
    neutron-star radius. *)
Theorem r_disruption_equal_masses (m rns : R) :
  m <> 0 -> calculate_r_disruption m m rns = Ok (Real rns).
Proof.
  intros Hm. unfold calculate_r_disruption.
  rewrite py_div_real by exact Hm. cbn [bind].
  replace (m / m)%R with 1%R by (field; exact Hm).
  rewrite py_pow_pos, Rpower_one by lra.
  cbn [py_mul arith]. do 2 f_equal. ring.
Qed.

(** X20: in exact real arithmetic, for masses of opposite signs the mass
    ratio is negative and the disruption radius returned is a complex
    number: no exception and no [nan]. *)
Theorem r_disruption_negative_ratio (mbh mns rns : R) :
  mbh * mns < 0 -> calculate_r_disruption mbh mns rns = Ok Complex.
Proof.
  intros H.
  assert (Hns : mns <> 0) by (intros ->; lra).
  assert (Hq : mbh / mns < 0).
  { replace (mbh / mns)%R with (mbh * mns * (/ mns * / mns))%R
      by (field; exact Hns).
    assert (0 < / mns * / mns).
    { replace (/ mns * / mns)%R with (Rsqr (/ mns)) by reflexivity.
      apply Rsqr_pos_lt. now apply Rinv_neq_0_compat. }
    nra. }
  unfold calculate_r_disruption.
  rewrite py_div_real by exact Hns. cbn [bind].
  now rewrite py_pow_neg.
Qed.

End DisruptionRadius.

(** ** The further properties at concrete inputs *)

Section MoreInstances.

Import Exact.
Local Open Scope value_scope.

Local Abbreviation Msun := 1.988409870698051e30%R.
Local Abbreviation G := 6.6743e-11%R.
Local Abbreviation c := 299792458%R.
Local Abbreviation k := mass_conversion_constant.

Lemma rest_mass_above_gravitational_witness :
  exists r1 r2 : R,
    rest_mass_from_gravitational_mass 1 = Real r1
    /\ rest_mass_from_gravitational_mass 2 = Real r2
    /\ 1 <= r1 /\ 2 < r2 /\ r1 < r2.
Proof. apply rest_mass_above_gravitational; lra. Defined.

Lemma gravitational_mass_increasing_witness :
  exists g1 g2 : R,
    gravitational_mass_from_rest_mass 0 = Ok (Real g1)
    /\ gravitational_mass_from_rest_mass 1 = Ok (Real g2)
    /\ - 1 / (2 * k) <= g1 /\ g1 < g2.
Proof.
  apply gravitational_mass_increasing;
    unfold mass_conversion_constant; lra.
Defined.

Lemma remnant_of_single_star_witness :
  total_gravitational_mass 2 0 (Some (Real 0)) = Ok (Real 2).
Proof. apply remnant_of_single_star. lra. Defined.

Lemma remnant_mass_deficit_witness :
  exists g : R,
    total_gravitational_mass 1.2%R 1.3%R (Some (Real 0.05)) = Ok (Real g)
    /\ 0 <= g <= 1.2 + 1.3.
Proof.
  apply remnant_mass_deficit; unfold mass_conversion_constant; lra.
Defined.

Lemma bns_disruption_rest_mass_form_witness :
  bns_disruption 1.2%R 1.3%R 2.1%R (Some (Real 0.05)) = Ok true
  <-> 1.2 * 2.1 + k * (1.2 * 2.1 * (1.2 * 2.1))
      <= 1.2 + k * (1.2 * 1.2) + (1.3 + k * (1.3 * 1.3)) - 0.05.
Proof. apply bns_disruption_rest_mass_form. lra. Defined.

(** Two stars of 2 solar masses against [mtov = 1]. *)
Lemma bns_disruption_heavy : bns_disruption 2 2 1 (Some (Real 0)) = Ok true.
Proof.
  rewrite bns_disruption_real. cbv zeta.
  destruct (Rle_lt_dec 0 (1 + 4 * k * (2 + k * (2 * 2) + (2 + k * (2 * 2)) - 0)))
    as [Hd | Hd]; [| exfalso; unfold mass_conversion_constant in Hd; lra].
  destruct (Rge_dec _ (1.2 * 1)) as [_ | N]; [reflexivity |].
  exfalso. apply N. apply gravitational_mass_reaches; [lra | exact Hd |].
  unfold mass_conversion_constant. lra.
Qed.

Lemma bns_disruption_monotone_witness :
  bns_disruption 3 2 0.9%R (Some (Real 0)) = Ok true.
Proof.
  apply (bns_disruption_monotone 2 2 1 0 3 2 0.9 0);
    try lra; exact bns_disruption_heavy.
Defined.

Lemma bns_disruption_excess_ejecta_witness :
  total_gravitational_mass 1 1 (Some (Real 10)) = Ok NaN
  /\ bns_disruption 1 1 2.1%R (Some (Real 10)) = Ok false.
Proof.
  apply bns_disruption_excess_ejecta.
  unfold mass_conversion_constant. lra.
Defined.

Lemma retrograde_unrecognized : ~ recognized "retrograde".
Proof. intros [H | H]; discriminate H. Qed.

Lemma unrecognized_sense_raises_witness :
  calculate_r_isco Msun G c (1/2)%R 5 "retrograde" = Raise UnboundLocalError
  /\ nsbh_disruption Msun G c 5 1.4%R 11 (1/2)%R "retrograde"
     = Raise UnboundLocalError.
Proof.
  apply unrecognized_sense_raises;
    [lra | lra | exact retrograde_unrecognized].
Defined.

Lemma beyond_extremal_spin_complex_witness :
  calculate_r_isco Msun G c (3/2)%R 5 "co_rotating" = Ok Complex.
Proof.
  apply beyond_extremal_spin_complex;
    [exact c_nonzero | rewrite Rabs_pos_eq; lra | lra
     | exact co_rotating_recognized].
Defined.

Lemma r_isco_physical_range_witness :
  exists r_co r_counter : R,
    r_isco_geometric (1/2)%R 5 "co_rotating" = Ok (Real r_co)
    /\ r_isco_geometric (1/2)%R 5 "counter_rotating" = Ok (Real r_counter)
    /\ 5 <= r_co /\ r_co <= 6 * 5 /\ 6 * 5 <= r_counter
    /\ r_counter <= 9 * 5.
Proof. apply r_isco_physical_range; lra. Defined.

(** A 20 km star of one solar mass around a black hole of one solar mass
    without spin is disrupted outside the ISCO, at about 8.9 km. *)
Lemma nsbh_disruption_light (type : string) :
  recognized type ->
  nsbh_disruption Msun G c 1 1 20 0 type = Ok true.
Proof.
  intros Hty. unfold nsbh_disruption.
  rewrite calculate_r_disruption_pos by lra. cbn [bind].
  rewrite (calculate_r_isco_spin_0 Msun G c c_nonzero)
    by (lra || exact Hty).
  cbn [bind]. apply py_ge_real_true.
  replace (1 / 1)%R with 1%R by field.
  rewrite Rpower_one. lra.
Qed.

Lemma nsbh_disruption_co_rotating_favoured_witness :
  nsbh_disruption Msun G c 1 1 20 0 "co_rotating" = Ok true.
Proof.
  apply (nsbh_disruption_co_rotating_favoured Msun G c c_nonzero);
    try lra.
  apply nsbh_disruption_light. now right.
Defined.

Lemma nsbh_disruption_monotone_witness :
  nsbh_disruption Msun G c 1 (1/2)%R 25 0 "co_rotating" = Ok true.
Proof.
  apply (nsbh_disruption_monotone Msun G c c_nonzero 1 1 20 0 (1/2) 25);
    try lra; [exact co_rotating_recognized |].
  apply nsbh_disruption_light. exact co_rotating_recognized.
Defined.

Lemma r_disruption_mass_ratio_witness :
  exists r : R,
    calculate_r_disruption 5 1.4%R 11 = Ok (Real r)
    /\ calculate_r_disruption (2 * 5)%R (2 * 1.4)%R 11 = Ok (Real r).
Proof. apply r_disruption_mass_ratio; lra. Defined.

Lemma spin_sign_irrelevant_witness :
  calculate_r_isco Msun G c (- (1/2))%R 5 "co_rotating"
  = calculate_r_isco Msun G c (1/2)%R 5 "co_rotating".
Proof. apply (spin_sign_irrelevant Msun G c c_nonzero). lra. Defined.

Lemma r_disruption_equal_masses_witness :
  calculate_r_disruption 1.4%R 1.4%R 11 = Ok (Real 11).
Proof. apply r_disruption_equal_masses. lra. Defined.

Lemma r_disruption_negative_ratio_witness :
  calculate_r_disruption (-5)%R 1.4%R 11 = Ok Complex.
Proof. apply r_disruption_negative_ratio. lra. Defined.

End MoreInstances.
